(** * Restaurant ordering backend: cart, order workflow and role checks

    A shallow embedding of [APIsapp/models.py], [APIsapp/permissions.py],
    [APIsapp/serializers.py] and [APIsapp/views.py].

    - A database table is a finite map from primary key to row.
    - A view is a function on the store that either returns a [Response]
      or raises; every ORM statement takes effect on its own (the views
      open no transaction), so a view that raises keeps the writes made
      before the exception.
    - Money is counted in hundredths: [DecimalField(decimal_places=2)]. *)

From stdpp Require Import base strings gmap fin_maps fin_sets list sorting.
From Stdlib Require Import ZArith Lia.

(** ** Field types *)

(** Primary keys are the positive integers of Django's automatic [id]. *)
Abbreviation pk := positive (only parsing).

(** [DecimalField(max_digits=6, decimal_places=2)] holds a value of at
    most six digits, that is less than 10000.00 in magnitude.  Writing a
    value with more digits is refused when the row is saved. *)
Definition decimal_fits (v : Z) : bool := (Z.abs v <? 10 ^ 6)%Z.

(** [PositiveIntegerField] holds an integer from 0 up to the largest
    value of the integer column.  That largest value is the database
    backend's, which the project settings choose and the sources do not
    show: 2147483647 on PostgreSQL, more on MySQL and SQLite.  The
    smallest of them is taken, so that a value found valid here is valid
    on every backend. *)
Definition PositiveIntegerField_max : Z := 2147483647.

(** The range validators that the field hands to a model serializer.
    Where a backend reports a wider range, or none, a value outside this
    range may be accepted, or be refused by the column instead of the
    serializer: the model is that of the narrowest range, and the
    theorems on adding to a cart state the range of the quantity. *)
Definition PositiveIntegerField_valid (v : Z) : bool :=
  (0 <=? v)%Z && (v <=? PositiveIntegerField_max)%Z.

(** ** models.py *)

Module Category.
Record t := { title : string }.
End Category.

Module MenuItem.
Record t := { title : string; price : Z; category : pk }.
End MenuItem.

Module Cart.
Record t := { user : pk; menuitem : pk; quantity : N }.
End Cart.

Module Order.
Record t := {
  user : pk;
  delivery_crew : option pk;
  status : bool;
  total : Z
}.
End Order.

Module OrderItem.
Record t := { order : pk; menuitem : pk; quantity : N }.
End OrderItem.

(** [django.contrib.auth.models.User], with the names of its groups. *)
Module User.
Record t := {
  username : string;
  email : string;
  is_staff : bool;
  groups : gset string
}.
End User.

Global Instance Cart_eq_dec : EqDecision Cart.t.
Proof. solve_decision. Defined.
Global Instance Order_eq_dec : EqDecision Order.t.
Proof. solve_decision. Defined.
Global Instance OrderItem_eq_dec : EqDecision OrderItem.t.
Proof. solve_decision. Defined.

(** ** The database *)

Record Store := {
  users : gmap positive User.t;
  auth_groups : gset string;
  categories : gmap positive Category.t;
  menuitems : gmap positive MenuItem.t;
  carts : gmap positive Cart.t;
  orders : gmap positive Order.t;
  orderitems : gmap positive OrderItem.t
}.

Definition set_users (f : gmap positive User.t → gmap positive User.t)
    (s : Store) : Store :=
  {| users := f (users s); auth_groups := auth_groups s;
     categories := categories s; menuitems := menuitems s;
     carts := carts s; orders := orders s; orderitems := orderitems s |}.

Definition set_carts (f : gmap positive Cart.t → gmap positive Cart.t)
    (s : Store) : Store :=
  {| users := users s; auth_groups := auth_groups s;
     categories := categories s; menuitems := menuitems s;
     carts := f (carts s); orders := orders s; orderitems := orderitems s |}.

Definition set_orders (f : gmap positive Order.t → gmap positive Order.t)
    (s : Store) : Store :=
  {| users := users s; auth_groups := auth_groups s;
     categories := categories s; menuitems := menuitems s;
     carts := carts s; orders := f (orders s); orderitems := orderitems s |}.

Definition set_orderitems
    (f : gmap positive OrderItem.t → gmap positive OrderItem.t)
    (s : Store) : Store :=
  {| users := users s; auth_groups := auth_groups s;
     categories := categories s; menuitems := menuitems s;
     carts := carts s; orders := orders s; orderitems := f (orderitems s) |}.

(** ** Responses and exceptions *)

Inductive Body :=
  | JError (msg : string)
  | JWarning (msg : string)
  | JStatus (msg : string)
  | JDetail (msg : string)
  | JOrderData (id : pk) (order : Order.t)
      (items : list (pk * OrderItem.t))
  | JOrder (msg : string) (id : pk) (order : Order.t)
      (items : list (pk * OrderItem.t))
  | JCart (id : pk) (row : Cart.t)
  | JUsers (rows : list (pk * User.t)).

Record Response := { data : Body; status_code : nat }.

Inductive Exception :=
  | PermissionDenied
  | Http404
  | ValidationError
  | DoesNotExist (model : string)
  | InvalidOperation.

(** The status the framework answers with when a view raises. *)
Definition exception_status (e : Exception) : nat :=
  match e with
  | PermissionDenied => 403
  | Http404 => 404
  | ValidationError => 400
  | DoesNotExist _ | InvalidOperation => 500
  end.

(** ** Views as store transformers that may raise *)

Inductive Result (A : Type) :=
  | Ok (a : A) (s : Store)
  | Raise (e : Exception) (s : Store).
Arguments Ok {A} a s.
Arguments Raise {A} e s.

Definition M (A : Type) : Type := Store → Result A.

Definition ret {A} (a : A) : M A := λ s, Ok a s.
Definition raise {A} (e : Exception) : M A := λ s, Raise e s.
Definition bind {A B} (m : M A) (k : A → M B) : M B :=
  λ s, match m s with
       | Ok a s' => k a s'
       | Raise e s' => Raise e s'
       end.
Definition gets {A} (f : Store → A) : M A := λ s, Ok (f s) s.
Definition modify (f : Store → Store) : M unit := λ s, Ok tt (f s).

Notation "'do' x <- m ; k" := (bind m (λ x, k))
  (at level 10, x name, m at level 100, k at level 200,
   format "'[v' 'do'  x  <-  m ; '/' k ']'").
Notation "'run' m ; k" := (bind m (λ _, k))
  (at level 10, m at level 100, k at level 200,
   format "'[v' 'run'  m ; '/' k ']'").

Definition store_of {A} (r : Result A) : Store :=
  match r with Ok _ s => s | Raise _ s => s end.

Definition http_status (r : Result Response) : nat :=
  match r with
  | Ok resp _ => status_code resp
  | Raise e _ => exception_status e
  end.

(** ** Object managers *)

(** The key the database gives a new row: one not in use. *)
Definition new_pk {A} (table : gmap positive A) : pk := fresh (dom table).

(** [user.groups.filter(name=...).exists()]. *)
Definition in_group (name : string) (user : pk) (s : Store) : bool :=
  match users s !! user with
  | Some u => bool_decide (name ∈ User.groups u)
  | None => false
  end.

(** [user.groups.filter(name__in=[...]).exists()]. *)
Definition in_any_group (names : list string) (user : pk) (s : Store)
    : bool :=
  existsb (λ name, in_group name user s) names.

Definition user_is_staff (user : pk) (s : Store) : bool :=
  match users s !! user with
  | Some u => User.is_staff u
  | None => false
  end.

(** [Model.objects.get(pk=...)]: raises [DoesNotExist] when no row matches. *)
Definition objects_get {A} (model : string) (table : Store → gmap positive A)
    (id : pk) : M A :=
  do row <- gets (λ s, table s !! id);
  match row with
  | Some x => ret x
  | None => raise (DoesNotExist model)
  end.

(** [Cart.objects.filter(user=user)]. *)
Definition Cart_filter_user (user : pk) (s : Store) : gmap positive Cart.t :=
  filter (λ kc, Cart.user kc.2 = user) (carts s).

(** [Cart.objects.filter(user=user).delete()]. *)
Definition Cart_delete_user (user : pk) : M unit :=
  modify (set_carts (filter (λ kc, Cart.user kc.2 ≠ user))).

Definition Cart_create (row : Cart.t) : M pk :=
  do id <- gets (λ s, new_pk (carts s));
  run modify (set_carts <[id := row]>);
  ret id.

(** [Order.objects.create(user=user)], the other fields at their defaults. *)
Definition Order_create (user : pk) : M (pk * Order.t) :=
  let order := {| Order.user := user; Order.delivery_crew := None;
                  Order.status := false; Order.total := 0 |} in
  do id <- gets (λ s, new_pk (orders s));
  run modify (set_orders <[id := order]>);
  ret (id, order).

(** [order.save()]: every field of the instance is written to its row.
    [total] is first formatted for its column,
    [DecimalField(max_digits=6, decimal_places=2)]; a value of more than
    six digits makes the save raise, and nothing is written. *)
Definition Order_save (id : pk) (order : Order.t) : M unit :=
  if decimal_fits (Order.total order)
  then modify (set_orders <[id := order]>)
  else raise InvalidOperation.

Definition OrderItem_create (row : OrderItem.t) : M pk :=
  do id <- gets (λ s, new_pk (orderitems s));
  run modify (set_orderitems <[id := row]>);
  ret id.

(** [order.items.all()], as [OrderSerializer] reads it. *)
Definition Order_items (id : pk) (s : Store) : list (pk * OrderItem.t) :=
  map_to_list (filter (λ ki, OrderItem.order ki.2 = id) (orderitems s)).

(** ** permissions.py *)

Definition IsAdmin (user : pk) (s : Store) : bool := in_group "Admin" user s.
Definition IsManager (user : pk) (s : Store) : bool :=
  in_group "Manager" user s.
Definition IsDeliveryCrew (user : pk) (s : Store) : bool :=
  in_group "Delivery crew" user s.

(** [check_permissions] of the framework, for an authenticated caller. *)
Definition check_permissions (perm : pk → Store → bool) (user : pk)
    : M unit :=
  do allowed <- gets (perm user);
  if allowed : bool then ret tt else raise PermissionDenied.

(** ** views.py: CartViewSet *)

Module CartViewSet.

Definition get_queryset (user : pk) (s : Store) : gmap positive Cart.t :=
  Cart_filter_user user s.

(** [serializer.save(user=self.request.user)]: a new row for the
    validated [menuitem] and [quantity]. *)
Definition perform_create (user menuitem : pk) (quantity : N) : M pk :=
  Cart_create {| Cart.user := user; Cart.menuitem := menuitem;
                 Cart.quantity := quantity |}.

(** [POST /cart/]: [CartSerializer] accepts a [menuitem_id] found in
    [MenuItem.objects.all()] and a [quantity] in the range of
    [PositiveIntegerField]; then [perform_create]. *)
Definition create (user menuitem_id : pk) (quantity : Z) : M Response :=
  do item <- gets (λ s, menuitems s !! menuitem_id);
  match item with
  | None => raise ValidationError
  | Some _ =>
      if negb (PositiveIntegerField_valid quantity) then
        raise ValidationError
      else
        do id <- perform_create user menuitem_id (Z.to_N quantity);
        ret {| data := JCart id {| Cart.user := user;
                                    Cart.menuitem := menuitem_id;
                                    Cart.quantity := Z.to_N quantity |};
               status_code := 201 |}
  end.

Definition clear (user : pk) : M Response :=
  run Cart_delete_user user;
  ret {| data := JStatus "cart cleared"; status_code := 200 |}.

End CartViewSet.

(** ** views.py: OrderViewSet *)

Module OrderViewSet.

Definition get_queryset (user : pk) (s : Store) : gmap positive Order.t :=
  if in_group "Manager" user s || user_is_staff user s then
    orders s
  else if in_group "Delivery crew" user s then
    filter (λ ko, Order.delivery_crew ko.2 = Some user) (orders s)
  else
    filter (λ ko, Order.user ko.2 = user) (orders s).

(** [self.get_object()]: the row of [get_queryset] with this key, or 404. *)
Definition get_object (user id : pk) : M Order.t :=
  do row <- gets (λ s, get_queryset user s !! id);
  match row with
  | Some order => ret order
  | None => raise Http404
  end.

(** [self.perform_create]: [serializer.save(user=self.request.user)].
    Every other field of [OrderSerializer] is read-only, so the order
    takes the defaults of the model. *)
Definition perform_create (user : pk) : M (pk * Order.t) :=
  Order_create user.

(** [POST /orders/]. *)
Definition create (user : pk) : M Response :=
  do created <- perform_create user;
  let '(id, order) := created in
  do items <- gets (Order_items id);
  ret {| data := JOrderData id order items; status_code := 201 |}.

(** The [for item in cart_items] loop: one [OrderItem] per cart row,
    the running [total] threaded through.  [price * quantity] and the
    sum are exact decimal arithmetic, here integer arithmetic on
    hundredths. *)
Fixpoint copy_items (order : pk) (cart_items : list (pk * Cart.t))
    (total : Z) : M Z :=
  match cart_items with
  | [] => ret total
  | (_, item) :: rest =>
      do menuitem <- objects_get "MenuItem" menuitems (Cart.menuitem item);
      run OrderItem_create {| OrderItem.order := order;
                              OrderItem.menuitem := Cart.menuitem item;
                              OrderItem.quantity := Cart.quantity item |};
      copy_items order rest
        (total + MenuItem.price menuitem * Z.of_N (Cart.quantity item))%Z
  end.

Definition create_from_cart (user : pk) : M Response :=
  do cart_items <- gets (Cart_filter_user user);
  if decide (cart_items = ∅) then
    ret {| data := JError "Cart is empty"; status_code := 400 |}
  else
    do created <- Order_create user;
    let '(id, order) := created in
    do total <- copy_items id (map_to_list cart_items) 0;
    let order := {| Order.user := Order.user order;
                    Order.delivery_crew := Order.delivery_crew order;
                    Order.status := Order.status order;
                    Order.total := total |} in
    run Order_save id order;
    run Cart_delete_user user;
    do items <- gets (Order_items id);
    ret {| data := JOrder "order created" id order items;
           status_code := 201 |}.

(** [delivery_crew_id] is [None] when the request carries no usable
    value ([not delivery_user_id]). *)
Definition assign_order (user id : pk) (delivery_crew_id : option pk)
    : M Response :=
  run check_permissions IsManager user;
  do order <- get_object user id;
  match delivery_crew_id with
  | None =>
      ret {| data := JError "delivery_crew_id is required";
             status_code := 400 |}
  | Some delivery_user =>
      do found <- gets (λ s, users s !! delivery_user);
      match found with
      | None => ret {| data := JError "User not found"; status_code := 404 |}
      | Some _ =>
          if Order.delivery_crew order is Some _ then
            ret {| data := JError "Order already assigned";
                   status_code := 400 |}
          else
            do crew <- gets (in_group "Delivery crew" delivery_user);
            if negb crew then
              ret {| data := JError "User is not in Delivery crew group";
                     status_code := 400 |}
            else if decide (delivery_user = user) then
              ret {| data := JError "Manager cannot assign order to self";
                     status_code := 400 |}
            else
              let order := {| Order.user := Order.user order;
                              Order.delivery_crew := Some delivery_user;
                              Order.status := Order.status order;
                              Order.total := Order.total order |} in
              run Order_save id order;
              do items <- gets (Order_items id);
              ret {| data := JOrder "order assigned" id order items;
                     status_code := 202 |}
      end
  end.

Definition mark_delivered (user id : pk) : M Response :=
  run check_permissions IsDeliveryCrew user;
  do order <- get_object user id;
  if Order.status order then
    ret {| data := JWarning "Order already delivered"; status_code := 400 |}
  else
    let order := {| Order.user := Order.user order;
                    Order.delivery_crew := Order.delivery_crew order;
                    Order.status := true;
                    Order.total := Order.total order |} in
    run Order_save id order;
    ret {| data := JStatus "Order marked as delivered";
           status_code := 200 |}.

End OrderViewSet.

(** ** views.py: UserViewSet *)

Module UserViewSet.

Definition list (user : pk) : M Response :=
  do allowed <- gets (in_any_group ["Admin"; "Manager"] user);
  if negb allowed then
    ret {| data := JDetail "Not authorized"; status_code := 403 |}
  else
    do rows <- gets (λ s, map_to_list (users s));
    ret {| data := JUsers rows; status_code := 200 |}.

(** [Group.objects.get(name=...)] followed by [user.groups.add(group)]. *)
Definition add_to_group (name : string) (id : pk) : M unit :=
  do target <- objects_get "User" users id;
  do known <- gets (λ s, bool_decide (name ∈ auth_groups s));
  if negb known then raise (DoesNotExist "Group")
  else
    modify (set_users <[id := {| User.username := User.username target;
                                 User.email := User.email target;
                                 User.is_staff := User.is_staff target;
                                 User.groups := {[name]} ∪ User.groups target
                              |}]>).

Definition set_manager (user id : pk) : M Response :=
  run check_permissions IsAdmin user;
  run add_to_group "Manager" id;
  ret {| data := JStatus "manager added"; status_code := 200 |}.

Definition set_delivery (user id : pk) : M Response :=
  run check_permissions IsManager user;
  run add_to_group "Delivery crew" id;
  ret {| data := JStatus "delivery crew added"; status_code := 200 |}.

(** [order_id] is [None] when the request carries none; no order has
    that key. *)
Definition assign_order (user id : pk) (order_id : option pk) : M Response :=
  run check_permissions IsManager user;
  match order_id with
  | None => raise (DoesNotExist "Order")
  | Some k =>
      do order <- objects_get "Order" orders k;
      do target <- objects_get "User" users id;
      run Order_save k {| Order.user := Order.user order;
                          Order.delivery_crew := Some id;
                          Order.status := Order.status order;
                          Order.total := Order.total order |};
      ret {| data := JStatus "order assigned"; status_code := 200 |}
  end.

End UserViewSet.

(** ** urls.py: the requests the router dispatches to the views above

    These are the routes whose handlers [views.py] writes out; the
    read, update and delete routes that the view sets inherit unchanged
    from the framework are not among them. *)

Inductive Request :=
  | CartCreate (user menuitem_id : pk) (quantity : Z)
  | CartClear (user : pk)
  | OrdersCreate (user : pk)
  | OrdersCreateFromCart (user : pk)
  | OrdersAssignOrder (user id : pk) (delivery_crew_id : option pk)
  | OrdersMarkDelivered (user id : pk)
  | UsersList (user : pk)
  | UsersSetManager (user id : pk)
  | UsersSetDelivery (user id : pk)
  | UsersAssignOrder (user id : pk) (order_id : option pk).

Definition handle (req : Request) : M Response :=
  match req with
  | CartCreate user menuitem_id quantity =>
      CartViewSet.create user menuitem_id quantity
  | CartClear user => CartViewSet.clear user
  | OrdersCreate user => OrderViewSet.create user
  | OrdersCreateFromCart user => OrderViewSet.create_from_cart user
  | OrdersAssignOrder user id delivery_crew_id =>
      OrderViewSet.assign_order user id delivery_crew_id
  | OrdersMarkDelivered user id => OrderViewSet.mark_delivered user id
  | UsersList user => UserViewSet.list user
  | UsersSetManager user id => UserViewSet.set_manager user id
  | UsersSetDelivery user id => UserViewSet.set_delivery user id
  | UsersAssignOrder user id order_id =>
      UserViewSet.assign_order user id order_id
  end.

(** The store a request leaves behind, whether it returned or raised. *)
Definition after (req : Request) (s : Store) : Store :=
  store_of (handle req s).

Definition serve (reqs : list Request) (s : Store) : Store :=
  foldl (λ st req, after req st) s reqs.

(** The route [users/<id>/assign_order/]. *)
Definition is_users_assign_order (req : Request) : bool :=
  match req with UsersAssignOrder _ _ _ => true | _ => false end.

(** ** Roles and the listing rule of the specification *)

Inductive Role := Customer | DeliveryCrew | Manager | Admin.

(** The roles as the order views resolve them ([OrderViewSet.get_queryset]):
    Manager and Delivery crew are group memberships, Admin is the staff
    flag; every principal is a Customer. *)
Definition holds (role : Role) (user : pk) (s : Store) : bool :=
  match role with
  | Customer => true
  | DeliveryCrew => in_group "Delivery crew" user s
  | Manager => in_group "Manager" user s
  | Admin => user_is_staff user s
  end.

(** [listVisible] in the words of the specification, over a role set. *)
Definition listVisible_spec (roles : Role → bool) (caller : pk)
    (all : gmap positive Order.t) : gmap positive Order.t :=
  if roles Manager || roles Admin then all
  else if roles DeliveryCrew then
    filter (λ ko, Order.delivery_crew ko.2 = Some caller) all
  else filter (λ ko, Order.user ko.2 = caller) all.

(** ** Schema invariants *)

(** The foreign key [Cart.menuitem]: every cart row names a menu item. *)
Definition cart_menuitems_exist (s : Store) : Prop :=
  map_Forall (λ _ c, is_Some (menuitems s !! Cart.menuitem c)) (carts s).

(** The column [Order.total]: every stored total has at most six digits. *)
Definition order_totals_fit (s : Store) : Prop :=
  map_Forall (λ _ o, decimal_fits (Order.total o) = true) (orders s).

Global Instance cart_menuitems_exist_dec s : Decision (cart_menuitems_exist s).
Proof. unfold cart_menuitems_exist. apply _. Defined.
Global Instance order_totals_fit_dec s : Decision (order_totals_fit s).
Proof. unfold order_totals_fit. apply _. Defined.

(** ** Cart totals and conversion *)

Definition line_price (menu : gmap positive MenuItem.t) (c : Cart.t) : Z :=
  match menu !! Cart.menuitem c with
  | Some item => (MenuItem.price item * Z.of_N (Cart.quantity c))%Z
  | None => 0%Z
  end.

Definition lines_total (menu : gmap positive MenuItem.t)
    (l : list (pk * Cart.t)) : Z :=
  foldr (λ kc acc, (line_price menu kc.2 + acc)%Z) 0%Z l.

(** Sum of [menuitem.price * quantity] over the cart of [user], at the
    prices of the store. *)
Definition cart_total (user : pk) (s : Store) : Z :=
  lines_total (menuitems s) (map_to_list (Cart_filter_user user s)).

(** The order line that copies a cart line. *)
Definition line_of (order : pk) (c : Cart.t) : OrderItem.t :=
  {| OrderItem.order := order; OrderItem.menuitem := Cart.menuitem c;
     OrderItem.quantity := Cart.quantity c |}.

(** [s'] is [s] after the cart of [user] has become an order: one new
    order, placed and unassigned, with the cart's total; one new order
    line per cart line, in the order the cart is read; no cart line of
    [user] left; nothing else touched. *)
Definition converted (user : pk) (s s' : Store) : Prop :=
  ∃ (id : pk) (items : list (pk * OrderItem.t)),
    orders s !! id = None
    ∧ NoDup items.*1
    ∧ (∀ k, k ∈ items.*1 → orderitems s !! k = None)
    ∧ items.*2 = line_of id <$> (map_to_list (Cart_filter_user user s)).*2
    ∧ s' = {| users := users s; auth_groups := auth_groups s;
              categories := categories s; menuitems := menuitems s;
              carts := filter (λ kc, Cart.user kc.2 ≠ user) (carts s);
              orders := <[id := {| Order.user := user;
                                   Order.delivery_crew := None;
                                   Order.status := false;
                                   Order.total := cart_total user s |}]>
                          (orders s);
              orderitems := list_to_map items ∪ orderitems s |}.



(** ** Lines of a cart for one menu item *)

Definition lines_for (user menuitem : pk) (s : Store)
    : gmap positive Cart.t :=
  filter (λ kc, Cart.user kc.2 = user ∧ Cart.menuitem kc.2 = menuitem)
         (carts s).

(** The cart of [user] holds one line for [menuitem], of this quantity. *)
Definition single_line (user menuitem : pk) (quantity : N) (s : Store)
    : Prop :=
  ∃ id, lines_for user menuitem s
        = {[ id := {| Cart.user := user; Cart.menuitem := menuitem;
                      Cart.quantity := quantity |} ]}.

(** ** Changes to single orders *)

Definition delivered (o : Order.t) : Order.t :=
  {| Order.user := Order.user o; Order.delivery_crew := Order.delivery_crew o;
     Order.status := true; Order.total := Order.total o |}.

Definition assigned_to (target : pk) (o : Order.t) : Order.t :=
  {| Order.user := Order.user o; Order.delivery_crew := Some target;
     Order.status := Order.status o; Order.total := Order.total o |}.

Definition error (msg : string) (status : nat) : Response :=
  {| data := JError msg; status_code := status |}.

(** ** A small database for examples *)

Module Fixture.

Definition user (name : string) (staff : bool) (groups : list string)
    : User.t :=
  {| User.username := name; User.email := ""; User.is_staff := staff;
     User.groups := list_to_set groups |}.

Definition alice : pk := 1%positive.   (* a customer *)
Definition bob : pk := 2%positive.     (* a manager *)
Definition carol : pk := 3%positive.   (* delivery crew *)
Definition dave : pk := 4%positive.    (* delivery crew *)
Definition root : pk := 5%positive.    (* staff flag, no group *)

Definition people : gmap positive User.t :=
  list_to_map [(alice, user "alice" false []);
               (bob, user "bob" false ["Manager"]);
               (carol, user "carol" false ["Delivery crew"]);
               (dave, user "dave" false ["Delivery crew"]);
               (root, user "root" true [])].

Definition menu : gmap positive MenuItem.t :=
  list_to_map
    [(1%positive, {| MenuItem.title := "A"; MenuItem.price := 1000;
                     MenuItem.category := 1 |});
     (2%positive, {| MenuItem.title := "B"; MenuItem.price := 500;
                     MenuItem.category := 1 |})].

Definition with_cart (rows : list (pk * Cart.t)) : Store :=
  {| users := people;
     auth_groups := list_to_set ["Admin"; "Manager"; "Delivery crew"];
     categories := {[ 1%positive := {| Category.title := "Mains" |} ]};
     menuitems := menu;
     carts := list_to_map rows;
     orders := ∅;
     orderitems := ∅ |}.

(** No cart at all. *)
Definition bare : Store := with_cart [].

(** Alice holds two of item A (10.00) and one of item B (5.00). *)
Definition shopping : Store :=
  with_cart [(1%positive, {| Cart.user := alice; Cart.menuitem := 1;
                             Cart.quantity := 2 |});
             (2%positive, {| Cart.user := alice; Cart.menuitem := 2;
                             Cart.quantity := 1 |})].

(** Alice holds a thousand of item A: a total of 10000.00. *)
Definition bulk : Store :=
  with_cart [(1%positive, {| Cart.user := alice; Cart.menuitem := 1;
                             Cart.quantity := 1000 |})].

(** Alice has placed her order. *)
Definition placed : Store :=
  store_of (OrderViewSet.create_from_cart alice shopping).

(** Bob has assigned it to Carol along the order route. *)
Definition assigned : Store :=
  store_of (OrderViewSet.assign_order bob 1 (Some carol) placed).

(** Three orders: Alice's assigned to Carol, Bob's assigned to Dave,
    Carol's own and unassigned. *)
Definition three_orders : Store :=
  set_orders
    (λ _, list_to_map
       [(1%positive, {| Order.user := alice;
                        Order.delivery_crew := Some carol;
                        Order.status := false; Order.total := 2500 |});
        (2%positive, {| Order.user := bob;
                        Order.delivery_crew := Some dave;
                        Order.status := false; Order.total := 1000 |});
        (3%positive, {| Order.user := carol;
                        Order.delivery_crew := None;
                        Order.status := false; Order.total := 500 |})])
    bare.

End Fixture.

(** ** views.py: MenuItemViewSet and CategoryViewSet *)

(** [on_delete=models.CASCADE] in [Cart.menuitem] and [OrderItem.menuitem]:
    when the menu items with a key in [gone] are deleted, the cart lines
    and the order lines that name one of them are deleted with them. *)
Definition delete_menuitems (gone : gset positive) (s : Store) : Store :=
  {| users := users s; auth_groups := auth_groups s;
     categories := categories s;
     menuitems := filter (λ ki, ki.1 ∉ gone) (menuitems s);
     carts := filter (λ kc, Cart.menuitem kc.2 ∉ gone) (carts s);
     orders := orders s;
     orderitems :=
       filter (λ ki, OrderItem.menuitem ki.2 ∉ gone) (orderitems s) |}.

(** [on_delete=models.CASCADE] in [MenuItem.category]: deleting a
    category deletes its menu items, and what hangs on them. *)
Definition delete_category (id : pk) (s : Store) : Store :=
  let gone := dom (filter (λ ki, MenuItem.category ki.2 = id) (menuitems s)) in
  let s' := delete_menuitems gone s in
  {| users := users s'; auth_groups := auth_groups s';
     categories := delete id (categories s');
     menuitems := menuitems s'; carts := carts s';
     orders := orders s'; orderitems := orderitems s' |}.

Module MenuItemViewSet.

(** The order of [order_by('price')]: ascending. *)
Definition by_price (a b : pk * MenuItem.t) : Prop :=
  (MenuItem.price a.2 ≤ MenuItem.price b.2)%Z.

Global Instance by_price_dec a b : Decision (by_price a b).
Proof. unfold by_price. apply _. Defined.

Global Instance by_price_total : Total by_price.
Proof. intros a b. unfold by_price. lia. Qed.

Global Instance by_price_trans : Transitive by_price.
Proof. intros a b c. unfold by_price. lia. Qed.

(** [category] is the query parameter when the request carries one that
    is not empty ([if category]); [sort] is the query parameter as sent.
    The rows come in the order the table yields them; among equal prices
    the sorted order is one of the orders the database may answer with. *)
Definition get_queryset (category : option pk) (sort : option string)
    (s : Store) : list (pk * MenuItem.t) :=
  let queryset := map_to_list (menuitems s) in
  let queryset :=
    match category with
    | Some c => filter (λ ki, MenuItem.category ki.2 = c) queryset
    | None => queryset
    end in
  if decide (sort = Some "price") then merge_sort by_price queryset
  else queryset.

(** [self.get_object()] looks the key up in [get_queryset], which reads
    the query parameters of a detail request as well. *)
Definition get_object (category : option pk) (sort : option string)
    (id : pk) : M MenuItem.t :=
  do rows <- gets (get_queryset category sort);
  match (list_to_map rows : gmap positive MenuItem.t) !! id with
  | Some item => ret item
  | None => raise Http404
  end.

(** [DELETE /menu-item/<id>/] by an authenticated caller
    ([IsAuthenticatedOrReadOnly] asks for no role): the row and what
    cascades from it are deleted; the answer is 204 without a body. *)
Definition destroy (category : option pk) (sort : option string) (id : pk)
    : M unit :=
  run get_object category sort id;
  modify (delete_menuitems {[id]}).

End MenuItemViewSet.

Module CategoryViewSet.

(** [DELETE /categories/<id>/] by an authenticated caller; the queryset
    is [Category.objects.all()]. *)
Definition destroy (id : pk) : M unit :=
  do row <- gets (λ s, categories s !! id);
  match row with
  | Some _ => modify (delete_category id)
  | None => raise Http404
  end.

End CategoryViewSet.

(** ** A user after [user.groups.add(group)] *)

Definition with_group (name : string) (u : User.t) : User.t :=
  {| User.username := User.username u; User.email := User.email u;
     User.is_staff := User.is_staff u;
     User.groups := {[name]} ∪ User.groups u |}.

(** ** Who sends a request *)

Definition caller (req : Request) : pk :=
  match req with
  | CartCreate user _ _ | CartClear user | OrdersCreate user
  | OrdersCreateFromCart user | OrdersAssignOrder user _ _
  | OrdersMarkDelivered user _ | UsersList user | UsersSetManager user _
  | UsersSetDelivery user _ | UsersAssignOrder user _ _ => user
  end.

(** ** More examples *)

Module Cases.

(** Two categories; item C is the cheapest and alone in the second. *)
Definition menu : gmap positive MenuItem.t :=
  list_to_map
    [(1%positive, {| MenuItem.title := "A"; MenuItem.price := 1000;
                     MenuItem.category := 1 |});
     (2%positive, {| MenuItem.title := "B"; MenuItem.price := 500;
                     MenuItem.category := 1 |});
     (3%positive, {| MenuItem.title := "C"; MenuItem.price := 250;
                     MenuItem.category := 2 |})].

(** Alice and Bob both hold item B; Alice's order has a line of A and a
    line of B. *)
Definition busy : Store :=
  {| users := Fixture.people;
     auth_groups := list_to_set ["Admin"; "Manager"; "Delivery crew"];
     categories :=
       list_to_map [(1%positive, {| Category.title := "Mains" |});
                    (2%positive, {| Category.title := "Sides" |})];
     menuitems := menu;
     carts :=
       list_to_map
         [(1%positive, {| Cart.user := Fixture.alice; Cart.menuitem := 2;
                          Cart.quantity := 1 |});
          (2%positive, {| Cart.user := Fixture.bob; Cart.menuitem := 2;
                          Cart.quantity := 4 |});
          (3%positive, {| Cart.user := Fixture.bob; Cart.menuitem := 3;
                          Cart.quantity := 1 |})];
     orders :=
       {[ 1%positive := {| Order.user := Fixture.alice;
                           Order.delivery_crew := None;
                           Order.status := false; Order.total := 1500 |} ]};
     orderitems :=
       list_to_map
         [(1%positive, {| OrderItem.order := 1; OrderItem.menuitem := 1;
                          OrderItem.quantity := 1 |});
          (2%positive, {| OrderItem.order := 1; OrderItem.menuitem := 2;
                          OrderItem.quantity := 1 |})] |}.

(** Erin is in Delivery crew and in no other group; she holds item C. *)
Definition erin : pk := 6%positive.

Definition with_erin : Store :=
  set_carts
    <[4%positive := {| Cart.user := erin; Cart.menuitem := 3;
                       Cart.quantity := 2 |}]>
    (set_users
       <[erin := Fixture.user "erin" false ["Delivery crew"]]> busy).

(** Frank is in Manager and in Delivery crew. *)
Definition frank : pk := 7%positive.

Definition with_frank : Store :=
  set_users
    <[frank := Fixture.user "frank" false ["Manager"; "Delivery crew"]]>
    busy.

End Cases.

(** * Proofs *)

(** ** The monad and the object managers *)

Lemma new_pk_fresh {A} (table : gmap positive A) : table !! new_pk table = None.
Proof. apply not_elem_of_dom, is_fresh. Qed.

Lemma PositiveIntegerField_valid_spec v :
  PositiveIntegerField_valid v = true
  ↔ (0 ≤ v ≤ PositiveIntegerField_max)%Z.
Proof.
  unfold PositiveIntegerField_valid.
  rewrite andb_true_iff, !Z.leb_le. done.
Qed.

Lemma bind_eq {A B} (m : M A) (k : A → M B) s :
  bind m k s = match m s with
               | Ok a s' => k a s'
               | Raise e s' => Raise e s'
               end.
Proof. done. Qed.

Lemma store_eta s : set_orderitems (λ _, orderitems s) s = s.
Proof. by destruct s. Qed.

Lemma check_permissions_true perm user s :
  perm user s = true → check_permissions perm user s = Ok tt s.
Proof. intros H. unfold check_permissions, bind, gets. by rewrite H. Qed.

Lemma check_permissions_false perm user s :
  perm user s = false →
  check_permissions perm user s = Raise PermissionDenied s.
Proof. intros H. unfold check_permissions, bind, gets. by rewrite H. Qed.

Lemma get_object_Some user id o s :
  OrderViewSet.get_queryset user s !! id = Some o →
  OrderViewSet.get_object user id s = Ok o s.
Proof. intros H. unfold OrderViewSet.get_object, bind, gets. by rewrite H. Qed.

Lemma get_object_None user id s :
  OrderViewSet.get_queryset user s !! id = None →
  OrderViewSet.get_object user id s = Raise Http404 s.
Proof. intros H. unfold OrderViewSet.get_object, bind, gets. by rewrite H. Qed.

(** ** Visibility of orders *)

Lemma get_queryset_all user s :
  in_group "Manager" user s || user_is_staff user s = true →
  OrderViewSet.get_queryset user s = orders s.
Proof. intros H. unfold OrderViewSet.get_queryset. by rewrite H. Qed.

Lemma get_queryset_crew user s :
  in_group "Manager" user s || user_is_staff user s = false →
  in_group "Delivery crew" user s = true →
  OrderViewSet.get_queryset user s
  = filter (λ ko, Order.delivery_crew ko.2 = Some user) (orders s).
Proof. intros H1 H2. unfold OrderViewSet.get_queryset. by rewrite H1, H2. Qed.

Lemma get_queryset_owner user s :
  in_group "Manager" user s || user_is_staff user s = false →
  in_group "Delivery crew" user s = false →
  OrderViewSet.get_queryset user s
  = filter (λ ko, Order.user ko.2 = user) (orders s).
Proof. intros H1 H2. unfold OrderViewSet.get_queryset. by rewrite H1, H2. Qed.

(** Whatever the role, a listed order is a stored order. *)
Lemma get_queryset_lookup user s id o :
  OrderViewSet.get_queryset user s !! id = Some o → orders s !! id = Some o.
Proof.
  unfold OrderViewSet.get_queryset.
  repeat case_match; [done | |]; by intros [? _]%map_lookup_filter_Some.
Qed.

(** C6.  The orders a caller is shown are those of [listVisible_spec] for
    the roles the caller holds: every order for a Manager or an Admin (the
    staff flag); for Delivery crew that is neither, exactly the orders whose
    [delivery_crew] is the caller; for anyone else, exactly the orders whose
    [user] is the caller.  The three cases are tried in this order, so the
    rule covers every combination of roles. *)
Theorem listVisible_by_role (caller : pk) (s : Store) :
  let manager := holds Manager caller s in
  let admin := holds Admin caller s in
  let crew := holds DeliveryCrew caller s in
  OrderViewSet.get_queryset caller s
    = listVisible_spec (λ r, holds r caller s) caller (orders s)
  ∧ (manager || admin = true →
       OrderViewSet.get_queryset caller s = orders s)
  ∧ (manager || admin = false → crew = true →
       ∀ id o, OrderViewSet.get_queryset caller s !! id = Some o
               ↔ orders s !! id = Some o
                 ∧ Order.delivery_crew o = Some caller)
  ∧ (manager || admin = false → crew = false →
       ∀ id o, OrderViewSet.get_queryset caller s !! id = Some o
               ↔ orders s !! id = Some o ∧ Order.user o = caller).
Proof.
  simpl. split_and!.
  - done.
  - apply get_queryset_all.
  - intros H1 H2 id o. rewrite get_queryset_crew by done.
    by rewrite map_lookup_filter_Some.
  - intros H1 H2 id o. rewrite get_queryset_owner by done.
    by rewrite map_lookup_filter_Some.
Qed.

(** A customer, the two crew members, the manager and the staff user
    before three orders.  Carol, in Delivery crew, is shown the order
    assigned to her and not the one she owns. *)
Example listVisible_three_orders :
  let listed caller :=
    dom (OrderViewSet.get_queryset caller Fixture.three_orders) in
  listed Fixture.alice = {[1%positive]}
  ∧ listed Fixture.carol = {[1%positive]}
  ∧ listed Fixture.dave = {[2%positive]}
  ∧ listed Fixture.bob = {[1%positive; 2%positive; 3%positive]}
  ∧ listed Fixture.root = {[1%positive; 2%positive; 3%positive]}.
Proof. by vm_compute. Qed.

(** ** Admin by staff flag, Admin by group *)

Lemma in_group_no_groups name user u s :
  users s !! user = Some u → User.groups u = ∅ →
  in_group name user s = false.
Proof.
  intros Hu Hg. unfold in_group. rewrite Hu, Hg.
  apply bool_decide_eq_false. set_solver.
Qed.

(** C10.  Admin is resolved in two ways.  The order listing takes the staff
    flag for it, the user routes take membership of the group "Admin": a
    principal with the staff flag and no group is shown every order, is
    refused the list of users with status 403, and is denied [set_manager]. *)
Theorem staff_without_groups_is_half_admin (user : pk) (u : User.t)
    (s : Store) :
  users s !! user = Some u →
  User.is_staff u = true →
  User.groups u = ∅ →
  OrderViewSet.get_queryset user s = orders s
  ∧ UserViewSet.list user s
    = Ok {| data := JDetail "Not authorized"; status_code := 403 |} s
  ∧ ∀ target,
      UserViewSet.set_manager user target s = Raise PermissionDenied s.
Proof.
  intros Hu Hstaff Hgroups. split_and!.
  - apply get_queryset_all. unfold user_is_staff. rewrite Hu, Hstaff.
    apply orb_true_r.
  - unfold UserViewSet.list, bind, gets, in_any_group. simpl.
    by rewrite !(in_group_no_groups _ user u s).
  - intros target. unfold UserViewSet.set_manager, bind.
    rewrite check_permissions_false; [done |].
    by apply (in_group_no_groups _ user u s).
Qed.

Lemma staff_without_groups_witness :
  OrderViewSet.get_queryset Fixture.root Fixture.placed = orders Fixture.placed
  ∧ size (orders Fixture.placed) = 1
  ∧ UserViewSet.list Fixture.root Fixture.placed
    = Ok {| data := JDetail "Not authorized"; status_code := 403 |}
         Fixture.placed.
Proof.
  destruct (staff_without_groups_is_half_admin Fixture.root
              (Fixture.user "root" true []) Fixture.placed)
    as (H1 & H2 & _); [by vm_compute | done | by vm_compute |].
  split; [exact H1 |]. split; [by vm_compute | exact H2].
Defined.

(** ** Delivery *)

(** What [mark_delivered] does once permission is granted and the order is
    found. *)
Lemma mark_delivered_found user id o s :
  IsDeliveryCrew user s = true →
  OrderViewSet.get_queryset user s !! id = Some o →
  OrderViewSet.mark_delivered user id s
  = if Order.status o then
      Ok {| data := JWarning "Order already delivered"; status_code := 400 |} s
    else if decimal_fits (Order.total o) then
      Ok {| data := JStatus "Order marked as delivered"; status_code := 200 |}
         (set_orders <[id := delivered o]> s)
    else Raise InvalidOperation s.
Proof.
  intros Hperm Hget. unfold OrderViewSet.mark_delivered, bind.
  rewrite check_permissions_true by done.
  rewrite (get_object_Some _ _ o) by done.
  destruct (Order.status o); [done |].
  unfold Order_save. simpl. fold (delivered o).
  by destruct (decimal_fits (Order.total o)).
Qed.

(** The store after [mark_delivered] is the store before, or the store
    before with the order [id] marked. *)
Lemma mark_delivered_store user id s :
  store_of (OrderViewSet.mark_delivered user id s) = s
  ∨ ∃ o, orders s !! id = Some o ∧ Order.status o = false
         ∧ store_of (OrderViewSet.mark_delivered user id s)
           = set_orders <[id := delivered o]> s.
Proof.
  destruct (IsDeliveryCrew user s) eqn:Hperm.
  - destruct (OrderViewSet.get_queryset user s !! id) as [o|] eqn:Hget.
    + rewrite (mark_delivered_found user id o s) by done.
      destruct (Order.status o) eqn:Hst; [by left |].
      destruct (decimal_fits (Order.total o)); [| by left].
      right. exists o. eauto using get_queryset_lookup.
    + left. unfold OrderViewSet.mark_delivered, bind.
      rewrite check_permissions_true by done.
      by rewrite get_object_None.
  - left. unfold OrderViewSet.mark_delivered, bind.
    by rewrite check_permissions_false.
Qed.

(** Visibility does not depend on the status of the orders. *)
Lemma get_queryset_delivered user id o s :
  OrderViewSet.get_queryset user s !! id = Some o →
  OrderViewSet.get_queryset user (set_orders <[id := delivered o]> s) !! id
  = Some (delivered o).
Proof.
  unfold OrderViewSet.get_queryset.
  change (in_group "Manager" user (set_orders <[id:=delivered o]> s))
    with (in_group "Manager" user s).
  change (in_group "Delivery crew" user (set_orders <[id:=delivered o]> s))
    with (in_group "Delivery crew" user s).
  change (user_is_staff user (set_orders <[id:=delivered o]> s))
    with (user_is_staff user s).
  destruct (in_group "Manager" user s || user_is_staff user s);
    [| destruct (in_group "Delivery crew" user s)]; simpl.
  - intros _. apply lookup_insert_eq.
  - intros [_ Hcrew]%map_lookup_filter_Some. apply map_lookup_filter_Some.
    by rewrite lookup_insert_eq.
  - intros [_ Hown]%map_lookup_filter_Some. apply map_lookup_filter_Some.
    by rewrite lookup_insert_eq.
Qed.

(** C7.  [mark_delivered] never takes an order from delivered back to
    placed: whoever calls it on whichever order, every order that was
    delivered is stored unchanged afterwards.  When a Delivery crew caller
    marks an order twice that resolves for the caller and is placed, the
    first call answers 200 and changes that order's status alone, to
    delivered; the second answers with the warning "Order already
    delivered" and changes nothing. *)
Theorem mark_delivered_monotonic_once (user id : pk) (s : Store) :
  order_totals_fit s →
  (∀ k o, orders s !! k = Some o → Order.status o = true →
          orders (store_of (OrderViewSet.mark_delivered user id s)) !! k
          = Some o)
  ∧ (IsDeliveryCrew user s = true →
     ∀ o, OrderViewSet.get_queryset user s !! id = Some o →
          Order.status o = false →
          let s1 := set_orders <[id := delivered o]> s in
          OrderViewSet.mark_delivered user id s
          = Ok {| data := JStatus "Order marked as delivered";
                  status_code := 200 |} s1
          ∧ orders s1 !! id = Some (delivered o)
          ∧ s1 ≠ s
          ∧ OrderViewSet.mark_delivered user id s1
            = Ok {| data := JWarning "Order already delivered";
                    status_code := 400 |} s1).
Proof.
  intros Hfit. split.
  - intros k o Hk Hst.
    destruct (mark_delivered_store user id s) as [-> | (o' & Ho' & Hst' & ->)];
      [done |].
    simpl. destruct (decide (id = k)) as [-> | Hne].
    + congruence.
    + by rewrite lookup_insert_ne.
  - intros Hperm o Hget Hst s1.
    assert (orders s !! id = Some o) as Ho by eauto using get_queryset_lookup.
    assert (decimal_fits (Order.total o) = true) as Hfit_o
      by exact (Hfit id o Ho).
    split_and!.
    + rewrite (mark_delivered_found user id o s) by done.
      by rewrite Hst, Hfit_o.
    + apply lookup_insert_eq.
    + intros Heq. apply (f_equal (λ st, orders st !! id)) in Heq.
      simpl in Heq. rewrite lookup_insert_eq, Ho in Heq.
      injection Heq as Heq. apply (f_equal Order.status) in Heq.
      simpl in Heq. congruence.
    + rewrite (mark_delivered_found user id (delivered o) s1); [done | done |].
      by apply get_queryset_delivered.
Qed.

Lemma mark_delivered_twice_witness :
  ∃ s1,
    OrderViewSet.mark_delivered Fixture.carol 1 Fixture.assigned
    = Ok {| data := JStatus "Order marked as delivered"; status_code := 200 |}
         s1
    ∧ s1 ≠ Fixture.assigned
    ∧ OrderViewSet.mark_delivered Fixture.carol 1 s1
      = Ok {| data := JWarning "Order already delivered"; status_code := 400 |}
           s1.
Proof.
  destruct (mark_delivered_monotonic_once Fixture.carol 1 Fixture.assigned)
    as [_ H]; [apply (bool_decide_unpack _); by vm_compute |].
  destruct (H eq_refl
              {| Order.user := Fixture.alice;
                 Order.delivery_crew := Some Fixture.carol;
                 Order.status := false; Order.total := 2500 |})
    as (H1 & _ & H2 & H3); [by vm_compute | done |].
  eexists. split; [exact H1 |]. split; [exact H2 | exact H3].
Defined.

(** C9.  For a caller in Delivery crew who is neither Manager nor staff,
    [mark_delivered] looks the order up among the orders assigned to the
    caller: on an order assigned to somebody else, or to nobody, it raises
    404 and the store is unchanged; whenever it returns a response, the
    order's [delivery_crew] is the caller. *)
Theorem mark_delivered_scoped_to_assignee (user id : pk) (s : Store) :
  IsDeliveryCrew user s = true →
  IsManager user s = false →
  user_is_staff user s = false →
  (∀ o, orders s !! id = Some o → Order.delivery_crew o ≠ Some user →
        OrderViewSet.mark_delivered user id s = Raise Http404 s)
  ∧ (∀ resp s', OrderViewSet.mark_delivered user id s = Ok resp s' →
        ∃ o, orders s !! id = Some o ∧ Order.delivery_crew o = Some user).
Proof.
  unfold IsDeliveryCrew, IsManager. intros Hcrew Hman Hstaff.
  assert (OrderViewSet.get_queryset user s
          = filter (λ ko, Order.delivery_crew ko.2 = Some user) (orders s))
    as Hqs by (apply get_queryset_crew; [by rewrite Hman, Hstaff | done]).
  split.
  - intros o Ho Hother. unfold OrderViewSet.mark_delivered, bind.
    rewrite check_permissions_true by done.
    rewrite get_object_None; [done |]. rewrite Hqs.
    apply map_lookup_filter_None. right. intros o' Ho'. simpl. congruence.
  - intros resp s' Hok.
    destruct (OrderViewSet.get_queryset user s !! id) as [o|] eqn:Hget.
    + exists o. rewrite Hqs in Hget.
      by apply map_lookup_filter_Some in Hget.
    + unfold OrderViewSet.mark_delivered, bind in Hok.
      rewrite check_permissions_true in Hok by done.
      by rewrite get_object_None in Hok.
Qed.

Lemma mark_delivered_scoped_witness :
  OrderViewSet.mark_delivered Fixture.dave 1 Fixture.assigned
  = Raise Http404 Fixture.assigned.
Proof.
  destruct (mark_delivered_scoped_to_assignee Fixture.dave 1 Fixture.assigned)
    as [H _]; [by vm_compute | by vm_compute | by vm_compute |].
  apply (H {| Order.user := Fixture.alice;
              Order.delivery_crew := Some Fixture.carol;
              Order.status := false; Order.total := 2500 |});
    [by vm_compute | discriminate].
Defined.

(** ** Assignment along the order route *)

(** [assign_order] as one decision list. *)
Lemma assign_order_eval caller id target s :
  OrderViewSet.assign_order caller id (Some target) s
  = if negb (IsManager caller s) then Raise PermissionDenied s
    else match orders s !! id with
    | None => Raise Http404 s
    | Some o =>
      match users s !! target with
      | None => Ok (error "User not found" 404) s
      | Some _ =>
        if Order.delivery_crew o is Some _ then
          Ok (error "Order already assigned" 400) s
        else if negb (IsDeliveryCrew target s) then
          Ok (error "User is not in Delivery crew group" 400) s
        else if decide (target = caller) then
          Ok (error "Manager cannot assign order to self" 400) s
        else if decimal_fits (Order.total o) then
          let s' := set_orders <[id := assigned_to target o]> s in
          Ok {| data := JOrder "order assigned" id (assigned_to target o)
                          (Order_items id s');
                status_code := 202 |} s'
        else Raise InvalidOperation s
      end
    end.
Proof.
  unfold OrderViewSet.assign_order, bind.
  destruct (IsManager caller s) eqn:Hman; simpl.
  - rewrite check_permissions_true by done.
    unfold OrderViewSet.get_object, bind, gets.
    rewrite get_queryset_all
      by (unfold IsManager in Hman; by rewrite Hman).
    destruct (orders s !! id) as [o|]; [| done].
    unfold ret. destruct (users s !! target); [| done].
    destruct (Order.delivery_crew o); [done |].
    unfold IsDeliveryCrew.
    destruct (in_group "Delivery crew" target s); [| done]. simpl.
    destruct (decide (target = caller)); [done |].
    unfold Order_save. simpl.
    by destruct (decimal_fits (Order.total o)).
  - by rewrite check_permissions_false.
Qed.

(** The order route changes the order [id] alone, and only from
    unassigned to assigned. *)
Lemma assign_order_store user id delivery_crew_id s :
  store_of (OrderViewSet.assign_order user id delivery_crew_id s) = s
  ∨ ∃ o target, orders s !! id = Some o ∧ Order.delivery_crew o = None
       ∧ store_of (OrderViewSet.assign_order user id delivery_crew_id s)
         = set_orders <[id := assigned_to target o]> s.
Proof.
  destruct delivery_crew_id as [target|].
  - rewrite assign_order_eval.
    repeat (case_match; simpl; try by left).
    right. eauto.
  - left. unfold OrderViewSet.assign_order, bind, check_permissions, bind, gets.
    destruct (IsManager user s); [| done].
    unfold ret, OrderViewSet.get_object, bind, gets.
    by destruct (OrderViewSet.get_queryset user s !! id).
Qed.

(** One refused request: every clause of the statement is read off the
    outcome. *)
Local Ltac use_facts :=
  repeat match goal with
         | H : is_Some _ |- _ => destruct H
         | H : _ ∧ _ |- _ => destruct H
         | H : ∃ _, _ |- _ => destruct H
         end;
  simplify_eq.

Local Ltac close_case :=
  split_and!; try done; intros; try split; intros; use_facts; try done;
  split_and?; intros; use_facts; done.

(** C3.  [assign_order] of the order route answers 202 exactly when the
    caller is a Manager, the order and the target user exist, the order has
    no assignee, the target is in Delivery crew and is not the caller; it
    then writes the target into that order and nothing else.  Otherwise
    the store is unchanged and the first failing check decides the answer:
    permission denied (403), order not found (404), "User not found" (404),
    "Order already assigned" (400), "User is not in Delivery crew group"
    (400), "Manager cannot assign order to self" (400).  After a success
    no further call on that order succeeds or changes the store; repeated
    as it was, or made by any Manager for any existing user, it answers
    "Order already assigned". *)
Theorem assign_order_guards (caller id target : pk) (s : Store) :
  order_totals_fit s →
  let r := OrderViewSet.assign_order caller id (Some target) s in
  let assign2 caller2 target2 s' :=
    OrderViewSet.assign_order caller2 id (Some target2) s' in
  (http_status r = 202
   ↔ IsManager caller s = true
     ∧ (∃ o, orders s !! id = Some o ∧ Order.delivery_crew o = None)
     ∧ is_Some (users s !! target)
     ∧ IsDeliveryCrew target s = true
     ∧ target ≠ caller)
  ∧ (http_status r = 202 →
     ∃ o, orders s !! id = Some o
          ∧ store_of r = set_orders <[id := assigned_to target o]> s)
  ∧ (http_status r ≠ 202 → store_of r = s)
  ∧ (IsManager caller s = false → r = Raise PermissionDenied s)
  ∧ (IsManager caller s = true → orders s !! id = None →
     r = Raise Http404 s)
  ∧ (IsManager caller s = true → is_Some (orders s !! id) →
     users s !! target = None → r = Ok (error "User not found" 404) s)
  ∧ (IsManager caller s = true → is_Some (users s !! target) →
     ∀ o, orders s !! id = Some o →
       (is_Some (Order.delivery_crew o) →
        r = Ok (error "Order already assigned" 400) s)
       ∧ (Order.delivery_crew o = None → IsDeliveryCrew target s = false →
          r = Ok (error "User is not in Delivery crew group" 400) s)
       ∧ (Order.delivery_crew o = None → IsDeliveryCrew target s = true →
          target = caller →
          r = Ok (error "Manager cannot assign order to self" 400) s))
  ∧ (http_status r = 202 →
     let s' := store_of r in
     assign2 caller target s' = Ok (error "Order already assigned" 400) s'
     ∧ (∀ caller2 target2,
          http_status (assign2 caller2 target2 s') ≠ 202
          ∧ store_of (assign2 caller2 target2 s') = s')
     ∧ (∀ caller2 target2,
          IsManager caller2 s' = true → is_Some (users s' !! target2) →
          assign2 caller2 target2 s'
          = Ok (error "Order already assigned" 400) s')
     ∧ ∃ o, orders s' !! id = Some o
            ∧ Order.delivery_crew o = Some target).
Proof.
  intros Hfit r assign2. subst r assign2. simpl.
  assert (∀ caller2 target2 o,
    orders s !! id = Some o →
    let s' := set_orders <[id := assigned_to target o]> s in
    OrderViewSet.assign_order caller2 id (Some target2) s'
    = if negb (IsManager caller2 s') then Raise PermissionDenied s'
      else match users s' !! target2 with
           | None => Ok (error "User not found" 404) s'
           | Some _ => Ok (error "Order already assigned" 400) s'
           end) as Hsecond.
  { intros caller2 target2 o Ho s'. rewrite assign_order_eval.
    destruct (negb (IsManager caller2 s')); [done |].
    subst s'. simpl. by rewrite lookup_insert_eq. }
  rewrite assign_order_eval.
  destruct (IsManager caller s) eqn:Hman; simpl; [| by close_case].
  destruct (orders s !! id) as [o|] eqn:Ho; simpl; [| by close_case].
  pose proof (Hfit id o Ho) as Hfit_o. simpl in Hfit_o.
  destruct (users s !! target) as [u|] eqn:Hu; simpl; [| by close_case].
  destruct (Order.delivery_crew o) as [d|] eqn:Hd; simpl; [by close_case |].
  destruct (IsDeliveryCrew target s) eqn:Hcrew; simpl; [| by close_case].
  destruct (decide (target = caller)) as [Heq | Hne]; simpl; [by close_case |].
  rewrite Hfit_o. simpl. split_and!; try done.
  - split; [| done]. intros _. split_and!; eauto.
  - intros _. eauto.
  - intros _ _ o' Ho'. simplify_eq. rewrite Hd.
    split_and!; [by intros [? ?] | done | done].
  - intros _. split_and!.
    + rewrite Hsecond by done. simpl.
      change (IsManager caller (set_orders <[id:=assigned_to target o]> s))
        with (IsManager caller s). rewrite Hman. simpl. by rewrite Hu.
    + intros caller2 target2. rewrite Hsecond by done.
      destruct (negb _); [done |]. simpl.
      by destruct (users s !! target2).
    + intros caller2 target2 Hman2 [u2 Hu2]. rewrite Hsecond by done.
      rewrite Hman2. simpl. simpl in Hu2. by rewrite Hu2.
    + exists (assigned_to target o). by rewrite lookup_insert_eq.
Qed.

Lemma assign_order_guards_witness :
  let r := OrderViewSet.assign_order Fixture.bob 1 (Some Fixture.carol)
             Fixture.placed in
  http_status r = 202
  ∧ OrderViewSet.assign_order Fixture.bob 1 (Some Fixture.carol) (store_of r)
    = Ok (error "Order already assigned" 400) (store_of r).
Proof.
  destruct (assign_order_guards Fixture.bob 1 Fixture.carol Fixture.placed)
    as (Hiff & _ & _ & _ & _ & _ & _ & Hagain);
    [apply (bool_decide_unpack _); by vm_compute |].
  assert (http_status (OrderViewSet.assign_order Fixture.bob 1
                         (Some Fixture.carol) Fixture.placed) = 202) as Hok.
  { apply Hiff. split_and!.
    - by vm_compute.
    - eexists. split; [by vm_compute | done].
    - apply (bool_decide_unpack _). by vm_compute.
    - by vm_compute.
    - discriminate. }
  split; [exact Hok |]. by destruct (Hagain Hok) as [H _].
Defined.

(** ** Conversion of a cart *)

(** The loop writes order lines and nothing else. *)
Lemma copy_items_frame order l :
  ∀ total s, ∃ m,
    store_of (OrderViewSet.copy_items order l total s)
    = set_orderitems (λ _, m) s.
Proof.
  induction l as [| [k c] l IH]; intros total s.
  - exists (orderitems s). simpl. by rewrite store_eta.
  - simpl. rewrite bind_eq. unfold objects_get. rewrite bind_eq.
    unfold gets at 1.
    destruct (menuitems s !! Cart.menuitem c) as [item|].
    + unfold ret at 1. rewrite bind_eq.
      unfold OrderItem_create, bind, gets, modify, ret.
      destruct (IH (total + MenuItem.price item * Z.of_N (Cart.quantity c))%Z
                  (set_orderitems
                     <[new_pk (orderitems s) := line_of order c]> s))
        as [m Hm].
      exists m. unfold line_of in Hm. by rewrite Hm.
    + exists (orderitems s). simpl. by rewrite store_eta.
Qed.

(** [create_from_cart], statement by statement. *)
Lemma create_from_cart_unfold user s :
  OrderViewSet.create_from_cart user s
  = if decide (Cart_filter_user user s = ∅) then
      Ok {| data := JError "Cart is empty"; status_code := 400 |} s
    else
      let id := new_pk (orders s) in
      let order total := {| Order.user := user; Order.delivery_crew := None;
                            Order.status := false; Order.total := total |} in
      match OrderViewSet.copy_items id
              (map_to_list (Cart_filter_user user s)) 0%Z
              (set_orders <[id := order 0%Z]> s) with
      | Ok total s2 =>
          if decimal_fits total then
            let s3 := set_carts (filter (λ kc, Cart.user kc.2 ≠ user))
                        (set_orders <[id := order total]> s2) in
            Ok {| data := JOrder "order created" id (order total)
                            (Order_items id s3);
                  status_code := 201 |} s3
          else Raise InvalidOperation s2
      | Raise e s2 => Raise e s2
      end.
Proof.
  unfold OrderViewSet.create_from_cart. rewrite bind_eq. unfold gets at 1.
  destruct (decide (Cart_filter_user user s = ∅)); [done |].
  rewrite bind_eq. unfold Order_create, bind, gets, modify, ret.
  destruct (OrderViewSet.copy_items _ _ _ _) as [total s2 | e s2]; [| done].
  unfold Order_save. simpl. by destruct (decimal_fits total).
Qed.

(** What [create_from_cart] may have written when it ends, in any way. *)
Lemma create_from_cart_frame user s :
  let s' := store_of (OrderViewSet.create_from_cart user s) in
  users s' = users s
  ∧ menuitems s' = menuitems s
  ∧ (carts s' = carts s
     ∨ carts s' = filter (λ kc, Cart.user kc.2 ≠ user) (carts s))
  ∧ (orders s' = orders s
     ∨ ∃ o, decimal_fits (Order.total o) = true
            ∧ orders s' = <[new_pk (orders s) := o]> (orders s)).
Proof.
  simpl. rewrite create_from_cart_unfold.
  destruct (decide (Cart_filter_user user s = ∅));
    [by split_and!; eauto |]. simpl.
  set (id := new_pk (orders s)).
  set (o0 := {| Order.user := user; Order.delivery_crew := None;
                Order.status := false; Order.total := 0 |}).
  destruct (copy_items_frame id (map_to_list (Cart_filter_user user s))
              0%Z (set_orders <[id := o0]> s)) as [m Hm].
  destruct (OrderViewSet.copy_items id _ 0%Z _) as [total s2 | e s2];
    simpl in Hm; subst s2.
  - destruct (decimal_fits total) eqn:Hfit; simpl.
    + split_and!; [done | done | by right |]. right.
      eexists. split; [| by rewrite insert_insert_eq]. done.
    + split_and!; [done | done | by left |]. right. by exists o0.
  - simpl. split_and!; [done | done | by left |]. right. by exists o0.
Qed.

(** The loop over the cart, when every line names a menu item. *)
Lemma copy_items_spec order l :
  ∀ total s,
    Forall (λ kc, is_Some (menuitems s !! Cart.menuitem kc.2)) l →
    ∃ items,
      OrderViewSet.copy_items order l total s
      = Ok (total + lines_total (menuitems s) l)%Z
           (set_orderitems (λ m, list_to_map items ∪ m) s)
      ∧ NoDup items.*1
      ∧ (∀ k, k ∈ items.*1 → orderitems s !! k = None)
      ∧ items.*2 = line_of order <$> l.*2.
Proof.
  induction l as [| [k c] l IH]; intros total s Hfk.
  - exists []. simpl. unfold ret, set_orderitems. split_and!.
    + rewrite Z.add_0_r. destruct s; simpl. by rewrite (left_id_L ∅ (∪)).
    + constructor.
    + by intros k [] %elem_of_nil.
    + done.
  - apply Forall_cons in Hfk as [[item Hitem] Hfk]. simpl in Hitem.
    set (row := line_of order c).
    set (k1 := new_pk (orderitems s)).
    set (s1 := set_orderitems <[k1 := row]> s).
    destruct (IH (total + MenuItem.price item * Z.of_N (Cart.quantity c))%Z s1)
      as (items & Hrun & Hnodup & Hfresh & Hrows); [done |].
    assert (orderitems s !! k1 = None) as Hk1 by apply new_pk_fresh.
    assert (k1 ∉ items.*1) as Hk1_items.
    { intros Hin. apply Hfresh in Hin. subst s1. simpl in Hin.
      by rewrite lookup_insert_eq in Hin. }
    exists ((k1, row) :: items). split_and!.
    + simpl. unfold bind at 1. unfold objects_get, bind, gets. rewrite Hitem.
      unfold ret. unfold OrderItem_create, bind, gets, modify, ret.
      fold k1. fold (line_of order c). fold row. fold s1. rewrite Hrun.
      f_equal.
      * unfold line_price. simpl. rewrite Hitem. lia.
      * subst s1. unfold set_orderitems. simpl. f_equal.
        rewrite <- insert_union_l. rewrite <- insert_union_r; [done |].
        by apply not_elem_of_list_to_map.
    + simpl. by constructor.
    + intros k' [-> | Hin]%elem_of_cons; [done |].
      apply Hfresh in Hin. subst s1. simpl in Hin.
      apply lookup_insert_None in Hin. tauto.
    + rewrite !fmap_cons. simpl. by f_equal.
Qed.

Lemma cart_lines_have_items user s :
  cart_menuitems_exist s →
  Forall (λ kc, is_Some (menuitems s !! Cart.menuitem kc.2))
         (map_to_list (Cart_filter_user user s)).
Proof.
  intros Hfk. apply Forall_forall. intros [k c] Hin.
  apply elem_of_map_to_list in Hin.
  apply map_lookup_filter_Some in Hin as [Hin _]. exact (Hfk k c Hin).
Qed.

Lemma cart_drained user (m : gmap positive Cart.t) :
  filter (λ kc, Cart.user kc.2 = user)
         (filter (λ kc, Cart.user kc.2 ≠ user) m)
  = ∅.
Proof.
  apply map_empty. intros k. apply map_lookup_filter_None. right.
  intros c [_ Hne]%map_lookup_filter_Some. done.
Qed.

(** With an empty cart nothing is written. *)
Lemma create_from_cart_no_lines user s :
  Cart_filter_user user s = ∅ →
  OrderViewSet.create_from_cart user s
  = Ok {| data := JError "Cart is empty"; status_code := 400 |} s.
Proof.
  intros H. rewrite create_from_cart_unfold. by rewrite decide_True.
Qed.

(** With lines in the cart, the order and its lines are written first;
    whether the total fits decides the rest. *)
Lemma create_from_cart_eval user s :
  cart_menuitems_exist s →
  Cart_filter_user user s ≠ ∅ →
  ∃ id items,
    orders s !! id = None
    ∧ NoDup items.*1
    ∧ (∀ k, k ∈ items.*1 → orderitems s !! k = None)
    ∧ items.*2 = line_of id <$> (map_to_list (Cart_filter_user user s)).*2
    ∧ let order total := {| Order.user := user; Order.delivery_crew := None;
                            Order.status := false; Order.total := total |} in
      let s1 := {| users := users s; auth_groups := auth_groups s;
                   categories := categories s; menuitems := menuitems s;
                   carts := carts s;
                   orders := <[id := order 0%Z]> (orders s);
                   orderitems := list_to_map items ∪ orderitems s |} in
      OrderViewSet.create_from_cart user s
      = if decimal_fits (cart_total user s) then
          let s2 := set_carts (filter (λ kc, Cart.user kc.2 ≠ user))
                      (set_orders <[id := order (cart_total user s)]> s1) in
          Ok {| data := JOrder "order created" id (order (cart_total user s))
                          (Order_items id s2);
                status_code := 201 |} s2
        else Raise InvalidOperation s1.
Proof.
  intros Hfk Hne.
  set (id := new_pk (orders s)).
  set (o0 := {| Order.user := user; Order.delivery_crew := None;
                Order.status := false; Order.total := 0 |}).
  destruct (copy_items_spec id (map_to_list (Cart_filter_user user s)) 0%Z
              (set_orders <[id := o0]> s))
    as (items & Hrun & Hnodup & Hfresh & Hrows);
    [exact (cart_lines_have_items user s Hfk) |].
  exists id, items. split_and!; [apply new_pk_fresh | done | done | done |].
  simpl. rewrite create_from_cart_unfold. rewrite decide_False by done.
  simpl. fold id. fold o0. rewrite Hrun. simpl. rewrite Z.add_0_l.
  fold (cart_total user s).
  destruct (decimal_fits (cart_total user s)); [| done].
  unfold set_carts, set_orders. simpl. by rewrite !insert_insert_eq.
Qed.

(** With lines in the cart and a total that fits, the cart is converted. *)
Lemma create_from_cart_fits user s :
  cart_menuitems_exist s →
  Cart_filter_user user s ≠ ∅ →
  decimal_fits (cart_total user s) = true →
  ∃ resp s',
    OrderViewSet.create_from_cart user s = Ok resp s'
    ∧ status_code resp = 201
    ∧ converted user s s'.
Proof.
  intros Hfk Hne Hfit.
  destruct (create_from_cart_eval user s Hfk Hne)
    as (id & items & Hid & Hnodup & Hfresh & Hrows & Hrun).
  simpl in Hrun. rewrite Hfit in Hrun.
  eexists _, _. split; [exact Hrun |]. split; [done |].
  exists id, items. split_and!; try done.
  unfold set_carts, set_orders. simpl. by rewrite insert_insert_eq.
Qed.

(** After a conversion the cart of the owner is empty, the new order is
    the only new key, and it is placed and unassigned. *)
Lemma converted_inv user s s' :
  converted user s s' →
  CartViewSet.get_queryset user s' = ∅
  ∧ ∃ id, orders s !! id = None
          ∧ dom (orders s') = {[id]} ∪ dom (orders s)
          ∧ orders s' !! id
            = Some {| Order.user := user; Order.delivery_crew := None;
                      Order.status := false;
                      Order.total := cart_total user s |}.
Proof.
  intros (id & items & Hid & _ & _ & _ & ->). split.
  - apply cart_drained.
  - exists id. simpl. rewrite lookup_insert_eq. by rewrite dom_insert_L.
Qed.

(** C5.  For a principal whose cart has no lines, [create_from_cart]
    answers 400 "Cart is empty" and returns the store it was given: no
    order, no order line and no cart of anybody is written. *)
Theorem create_from_cart_empty (user : pk) (s : Store) :
  CartViewSet.get_queryset user s = ∅ →
  OrderViewSet.create_from_cart user s
  = Ok {| data := JError "Cart is empty"; status_code := 400 |} s.
Proof. apply create_from_cart_no_lines. Qed.

Lemma create_from_cart_empty_witness :
  CartViewSet.get_queryset Fixture.bob Fixture.shopping = ∅
  ∧ OrderViewSet.create_from_cart Fixture.bob Fixture.shopping
    = Ok {| data := JError "Cart is empty"; status_code := 400 |}
         Fixture.shopping.
Proof.
  split; [by vm_compute |].
  apply (create_from_cart_empty Fixture.bob Fixture.shopping). by vm_compute.
Defined.

(** C1, as amended.  For a principal with a cart that is not empty and
    whose total is below 10000.00 in magnitude (it fits the six digits of
    [Order.total]), [create_from_cart] answers 201 and leaves the store
    [converted]: exactly one new order, owned by the principal, placed,
    unassigned, its total the sum of price times quantity over the cart
    at the prices of the store; one new order line per cart line with the
    same menu item and quantity; no cart line of the principal left. *)
Theorem create_from_cart_converts (user : pk) (s : Store) :
  cart_menuitems_exist s →
  CartViewSet.get_queryset user s ≠ ∅ →
  decimal_fits (cart_total user s) = true →
  ∃ resp s',
    OrderViewSet.create_from_cart user s = Ok resp s'
    ∧ status_code resp = 201
    ∧ converted user s s'
    ∧ CartViewSet.get_queryset user s' = ∅
    ∧ ∃ id, orders s !! id = None
            ∧ dom (orders s') = {[id]} ∪ dom (orders s)
            ∧ orders s' !! id
              = Some {| Order.user := user; Order.delivery_crew := None;
                        Order.status := false;
                        Order.total := cart_total user s |}.
Proof.
  intros Hfk Hne Hfit.
  destruct (create_from_cart_fits user s Hfk Hne Hfit)
    as (resp & s' & Hrun & Hst & Hconv).
  destruct (converted_inv user s s' Hconv) as [Hcart Horder].
  by exists resp, s'.
Qed.

Lemma create_from_cart_converts_witness :
  ∃ resp s',
    OrderViewSet.create_from_cart Fixture.alice Fixture.shopping = Ok resp s'
    ∧ status_code resp = 201
    ∧ converted Fixture.alice Fixture.shopping s'
    ∧ CartViewSet.get_queryset Fixture.alice s' = ∅.
Proof.
  destruct (create_from_cart_converts Fixture.alice Fixture.shopping)
    as (resp & s' & H1 & H2 & H3 & H4 & _);
    [apply (bool_decide_unpack _); by vm_compute
    | apply (bool_decide_unpack _); by vm_compute
    | by vm_compute |].
  by exists resp, s'.
Defined.

(** The scenario of the specification: two of A at 10.00 and one of B at
    5.00 make an order of 25.00 with two lines. *)
Example create_from_cart_scenario :
  let r := OrderViewSet.create_from_cart Fixture.alice Fixture.shopping in
  http_status r = 201
  ∧ orders (store_of r)
    = {[ 1%positive := {| Order.user := Fixture.alice;
                          Order.delivery_crew := None;
                          Order.status := false; Order.total := 2500 |} ]}
  ∧ size (orderitems (store_of r)) = 2
  ∧ carts (store_of r) = ∅.
Proof. by vm_compute. Qed.

(** C1, as stated, fails once the total needs a seventh digit: a thousand
    items of 10.00 make 10000.00, the final [order.save()] raises, and
    the request ends with status 500 instead of a converted cart. *)
Lemma create_from_cart_total_overflow :
  cart_menuitems_exist Fixture.bulk
  ∧ CartViewSet.get_queryset Fixture.alice Fixture.bulk ≠ ∅
  ∧ cart_total Fixture.alice Fixture.bulk = 1000000%Z
  ∧ http_status (OrderViewSet.create_from_cart Fixture.alice Fixture.bulk)
    = 500
  ∧ ¬ ∃ resp s',
        OrderViewSet.create_from_cart Fixture.alice Fixture.bulk = Ok resp s'
        ∧ converted Fixture.alice Fixture.bulk s'
        ∧ CartViewSet.get_queryset Fixture.alice s' = ∅.
Proof.
  split_and!.
  - apply (bool_decide_unpack _). by vm_compute.
  - apply (bool_decide_unpack _). by vm_compute.
  - by vm_compute.
  - by vm_compute.
  - intros (resp & s' & Hrun & _). vm_compute in Hrun. discriminate.
Qed.






(** ** Adding to a cart *)

(** C8, as amended.  Given an existing menu item and a positive quantity
    within the range of the quantity column (at most 2147483647, the
    range that every backend has), adding to the cart always creates a
    new cart line for the owner and the menu item with the given
    quantity, under a key not in use, and leaves every existing line as
    it was: the lines of the owner for that menu item are the former
    ones and the new one.  The cart holds a
    single line for the menu item afterwards when it held none before. *)
Theorem cart_create_adds_line (user menuitem_id : pk) (quantity : Z)
    (s : Store) :
  (0 < quantity)%Z →
  (quantity ≤ PositiveIntegerField_max)%Z →
  is_Some (menuitems s !! menuitem_id) →
  let row := {| Cart.user := user; Cart.menuitem := menuitem_id;
                Cart.quantity := Z.to_N quantity |} in
  ∃ id,
    let s' := set_carts <[id := row]> s in
    carts s !! id = None
    ∧ CartViewSet.create user menuitem_id quantity s
      = Ok {| data := JCart id row; status_code := 201 |} s'
    ∧ (∀ k c, carts s !! k = Some c → carts s' !! k = Some c)
    ∧ lines_for user menuitem_id s'
      = <[id := row]> (lines_for user menuitem_id s)
    ∧ size (lines_for user menuitem_id s')
      = S (size (lines_for user menuitem_id s))
    ∧ (lines_for user menuitem_id s = ∅ →
       single_line user menuitem_id (Z.to_N quantity) s').
Proof.
  intros Hpos Hmax [item Hitem] row.
  set (id := new_pk (carts s)).
  assert (carts s !! id = None) as Hid by apply new_pk_fresh.
  assert (lines_for user menuitem_id s !! id = None) as Hid'.
  { apply map_lookup_filter_None. left. done. }
  assert (lines_for user menuitem_id (set_carts <[id := row]> s)
          = <[id := row]> (lines_for user menuitem_id s)) as Hlines.
  { unfold lines_for. simpl. by rewrite map_filter_insert_True. }
  exists id. simpl. split_and!.
  - done.
  - unfold CartViewSet.create, bind, gets. rewrite Hitem.
    assert (PositiveIntegerField_valid quantity = true) as ->
      by (apply PositiveIntegerField_valid_spec; lia).
    unfold CartViewSet.perform_create, Cart_create, bind, gets, modify, ret.
    done.
  - intros k c Hk. rewrite lookup_insert_ne; [done |]. congruence.
  - done.
  - rewrite Hlines. by apply map_size_insert_None.
  - intros Hnone. exists id. rewrite Hlines, Hnone. apply insert_empty.
Qed.

Lemma cart_create_adds_line_witness :
  ∃ id,
    CartViewSet.create Fixture.alice 1 3 Fixture.bare
    = Ok {| data := JCart id {| Cart.user := Fixture.alice;
                                Cart.menuitem := 1; Cart.quantity := 3 |};
            status_code := 201 |}
         (set_carts <[id := {| Cart.user := Fixture.alice; Cart.menuitem := 1;
                               Cart.quantity := 3 |}]> Fixture.bare)
    ∧ single_line Fixture.alice 1 3
        (set_carts <[id := {| Cart.user := Fixture.alice; Cart.menuitem := 1;
                              Cart.quantity := 3 |}]> Fixture.bare).
Proof.
  destruct (cart_create_adds_line Fixture.alice 1 3 Fixture.bare)
    as (id & _ & Hrun & _ & _ & _ & Hone);
    [lia | by vm_compute | apply (bool_decide_unpack _); by vm_compute |].
  exists id. split; [exact Hrun |]. apply Hone. by vm_compute.
Defined.

(** C8, as stated, fails when the cart already holds the item: the line
    of quantity 2 is not updated, a second line of quantity 5 is added,
    and the cart holds two lines for the item. *)
Lemma cart_create_duplicates_line :
  let r := CartViewSet.create Fixture.alice 1 5 Fixture.shopping in
  is_Some (menuitems Fixture.shopping !! 1%positive)
  ∧ http_status r = 201
  ∧ map_to_list (lines_for Fixture.alice 1 (store_of r))
    = [(3%positive, {| Cart.user := Fixture.alice; Cart.menuitem := 1;
                       Cart.quantity := 5 |});
       (1%positive, {| Cart.user := Fixture.alice; Cart.menuitem := 1;
                       Cart.quantity := 2 |})]
  ∧ ¬ single_line Fixture.alice 1 5 (store_of r).
Proof.
  split_and!.
  - apply (bool_decide_unpack _). by vm_compute.
  - by vm_compute.
  - by vm_compute.
  - intros [id Heq]. apply (f_equal size) in Heq.
    rewrite map_size_singleton in Heq. vm_compute in Heq. discriminate.
Qed.

(** ** The assignee across all requests *)

Lemma add_to_group_frame name id s :
  let s' := store_of (UserViewSet.add_to_group name id s) in
  menuitems s' = menuitems s ∧ carts s' = carts s ∧ orders s' = orders s.
Proof.
  simpl. unfold UserViewSet.add_to_group, bind, objects_get, bind, gets.
  destruct (users s !! id); [| done]. unfold ret.
  by destruct (bool_decide (name ∈ auth_groups s)).
Qed.

(** The user route writes the order [k] alone, its total as it was. *)
Lemma users_assign_order_store user id order_id s :
  store_of (UserViewSet.assign_order user id order_id s) = s
  ∨ ∃ k o, order_id = Some k ∧ orders s !! k = Some o
           ∧ store_of (UserViewSet.assign_order user id order_id s)
             = set_orders <[k := assigned_to id o]> s.
Proof.
  unfold UserViewSet.assign_order, bind, check_permissions, bind, gets.
  destruct (IsManager user s); [| by left]. unfold ret.
  destruct order_id as [k|]; [| by left].
  unfold objects_get, bind, gets.
  destruct (orders s !! k) as [o|] eqn:Ho; [| by left]. unfold ret.
  destruct (users s !! id); [| by left].
  unfold Order_save. simpl.
  destruct (decimal_fits (Order.total o)); [| by left].
  right. by exists k, o.
Qed.

(** Every request of [Request] but [users/<id>/assign_order/] keeps an
    assignee that is set. *)
Lemma assignee_kept req s id o :
  is_users_assign_order req = false →
  orders s !! id = Some o →
  is_Some (Order.delivery_crew o) →
  ∃ o', orders (after req s) !! id = Some o'
        ∧ Order.delivery_crew o' = Order.delivery_crew o.
Proof.
  intros Hreq Ho Hset. unfold after.
  destruct req; simpl in *; try done.
  - exists o. split; [| done].
    unfold CartViewSet.create, bind, gets.
    destruct (menuitems s !! menuitem_id); [| done].
    by destruct (PositiveIntegerField_valid quantity).
  - by exists o.
  - exists o. split; [| done]. rewrite lookup_insert_ne; [done |].
    intros Heq. rewrite <- Heq, new_pk_fresh in Ho. done.
  - destruct (create_from_cart_frame user s) as (_ & _ & _ & Hord).
    destruct Hord as [-> | (o' & _ & ->)]; [eauto |].
    exists o. split; [| done]. rewrite lookup_insert_ne; [done |].
    intros Heq. rewrite <- Heq, new_pk_fresh in Ho. done.
  - destruct (assign_order_store user id0 delivery_crew_id s)
      as [-> | (o' & target & Ho' & Hnone & ->)]; [eauto |].
    simpl. destruct (decide (id0 = id)) as [-> | Hne].
    + simplify_eq. rewrite Hnone in Hset. by destruct Hset.
    + rewrite lookup_insert_ne by done. eauto.
  - destruct (mark_delivered_store user id0 s)
      as [-> | (o' & Ho' & _ & ->)]; [eauto |].
    simpl. destruct (decide (id0 = id)) as [-> | Hne].
    + simplify_eq. rewrite lookup_insert_eq. eauto.
    + rewrite lookup_insert_ne by done. eauto.
  - exists o. split; [| done]. unfold UserViewSet.list, bind, gets.
    by destruct (negb _).
  - exists o. split; [| done].
    unfold UserViewSet.set_manager, bind, check_permissions, bind, gets.
    destruct (IsAdmin user s); [| done]. unfold ret.
    destruct (add_to_group_frame "Manager" id0 s) as (_ & _ & H).
    destruct (UserViewSet.add_to_group "Manager" id0 s); simpl in *;
      by rewrite H.
  - exists o. split; [| done].
    unfold UserViewSet.set_delivery, bind, check_permissions, bind, gets.
    destruct (IsManager user s); [| done]. unfold ret.
    destruct (add_to_group_frame "Delivery crew" id0 s) as (_ & _ & H).
    destruct (UserViewSet.add_to_group "Delivery crew" id0 s); simpl in *;
      by rewrite H.
Qed.

(** The same across a sequence of such requests. *)
Lemma assignee_kept_serve reqs :
  ∀ s id o,
    forallb (λ req, negb (is_users_assign_order req)) reqs = true →
    orders s !! id = Some o →
    is_Some (Order.delivery_crew o) →
    ∃ o', orders (serve reqs s) !! id = Some o'
          ∧ Order.delivery_crew o' = Order.delivery_crew o.
Proof.
  induction reqs as [| req reqs IH]; intros s id o Hreqs Ho Hset; [eauto |].
  simpl in Hreqs. apply andb_true_iff in Hreqs as [Hreq Hreqs].
  apply negb_true_iff in Hreq.
  destruct (assignee_kept req s id o Hreq Ho Hset) as (o1 & Ho1 & Hd1).
  destruct (IH (after req s) id o1 Hreqs Ho1) as (o' & Ho' & Hd');
    [by rewrite Hd1 |].
  exists o'. split; [done | congruence].
Qed.

(** C2.  The code at the failing input.  Alice places her order, Bob (a
    Manager) assigns it to Carol along the order route; the store the two
    requests leave has order 1 assigned to Carol.  Bob's request
    [users/<dave>/assign_order/] with [order_id = 1] then answers 200 and
    order 1 is assigned to Dave: an assignee that was set has been changed.
    The order route refuses the same reassignment with
    "Order already assigned". *)
Theorem users_assign_order_reassigns :
  let s := serve [OrdersCreateFromCart Fixture.alice;
                  OrdersAssignOrder Fixture.bob 1 (Some Fixture.carol)]
                 Fixture.shopping in
  let r := UserViewSet.assign_order Fixture.bob Fixture.dave (Some 1%positive) s
  in
  Order.delivery_crew <$> orders s !! 1%positive = Some (Some Fixture.carol)
  ∧ r = Ok {| data := JStatus "order assigned"; status_code := 200 |}
           (store_of r)
  ∧ Order.delivery_crew <$> orders (store_of r) !! 1%positive
    = Some (Some Fixture.dave)
  ∧ OrderViewSet.assign_order Fixture.bob 1 (Some Fixture.dave) s
    = Ok (error "Order already assigned" 400) s.
Proof. by vm_compute. Qed.


(** ** The schema invariants hold in every reachable store *)

Lemma order_totals_fit_insert id o s :
  order_totals_fit s → decimal_fits (Order.total o) = true →
  order_totals_fit (set_orders <[id := o]> s).
Proof. intros Hs Ho. by apply map_Forall_insert_2. Qed.

Lemma order_totals_fit_after req s :
  order_totals_fit s → order_totals_fit (after req s).
Proof.
  intros Hs. unfold after. destruct req; simpl.
  - unfold CartViewSet.create, bind, gets.
    destruct (menuitems s !! menuitem_id); [| done].
    by destruct (PositiveIntegerField_valid quantity).
  - done.
  - by apply map_Forall_insert_2.
  - destruct (create_from_cart_frame user s) as (_ & _ & _ & Hord).
    unfold order_totals_fit.
    destruct Hord as [-> | (o & Ho & ->)]; [done |].
    by apply map_Forall_insert_2.
  - destruct (assign_order_store user id delivery_crew_id s)
      as [-> | (o & target & Ho & _ & ->)]; [done |].
    apply order_totals_fit_insert; [done |]. exact (Hs id o Ho).
  - destruct (mark_delivered_store user id s) as [-> | (o & Ho & _ & ->)];
      [done |].
    apply order_totals_fit_insert; [done |]. exact (Hs id o Ho).
  - unfold UserViewSet.list, bind, gets. by destruct (negb _).
  - unfold UserViewSet.set_manager, bind, check_permissions, bind, gets.
    destruct (IsAdmin user s); [| done]. unfold ret.
    destruct (add_to_group_frame "Manager" id s) as (_ & _ & H).
    unfold order_totals_fit.
    destruct (UserViewSet.add_to_group "Manager" id s); simpl in *;
      by rewrite H.
  - unfold UserViewSet.set_delivery, bind, check_permissions, bind, gets.
    destruct (IsManager user s); [| done]. unfold ret.
    destruct (add_to_group_frame "Delivery crew" id s) as (_ & _ & H).
    unfold order_totals_fit.
    destruct (UserViewSet.add_to_group "Delivery crew" id s); simpl in *;
      by rewrite H.
  - destruct (users_assign_order_store user id order_id s)
      as [-> | (k & o & _ & Ho & ->)]; [done |].
    apply order_totals_fit_insert; [done |]. exact (Hs k o Ho).
Qed.

Lemma cart_menuitems_exist_after req s :
  cart_menuitems_exist s → cart_menuitems_exist (after req s).
Proof.
  intros Hs. unfold after. destruct req; simpl.
  - unfold CartViewSet.create, bind, gets.
    destruct (menuitems s !! menuitem_id) eqn:Hitem; [| done].
    destruct (PositiveIntegerField_valid quantity); simpl; [| done].
    unfold CartViewSet.perform_create, Cart_create, bind, gets, modify, ret.
    simpl. apply map_Forall_insert_2; [simpl; by rewrite Hitem | exact Hs].
  - unfold cart_menuitems_exist. simpl.
    intros k c [Hk _]%map_lookup_filter_Some. exact (Hs k c Hk).
  - done.
  - destruct (create_from_cart_frame user s) as (_ & Hmenu & Hcarts & _).
    unfold cart_menuitems_exist. rewrite Hmenu.
    destruct Hcarts as [-> | ->]; [done |].
    intros k c [Hk _]%map_lookup_filter_Some. exact (Hs k c Hk).
  - by destruct (assign_order_store user id delivery_crew_id s)
      as [-> | (o & target & _ & _ & ->)].
  - by destruct (mark_delivered_store user id s) as [-> | (o & _ & _ & ->)].
  - unfold UserViewSet.list, bind, gets. by destruct (negb _).
  - unfold UserViewSet.set_manager, bind, check_permissions, bind, gets.
    destruct (IsAdmin user s); [| done]. unfold ret.
    destruct (add_to_group_frame "Manager" id s) as (H1 & H2 & _).
    unfold cart_menuitems_exist.
    destruct (UserViewSet.add_to_group "Manager" id s); simpl in *;
      by rewrite H1, H2.
  - unfold UserViewSet.set_delivery, bind, check_permissions, bind, gets.
    destruct (IsManager user s); [| done]. unfold ret.
    destruct (add_to_group_frame "Delivery crew" id s) as (H1 & H2 & _).
    unfold cart_menuitems_exist.
    destruct (UserViewSet.add_to_group "Delivery crew" id s); simpl in *;
      by rewrite H1, H2.
  - by destruct (users_assign_order_store user id order_id s)
      as [-> | (k & o & _ & _ & ->)].
Qed.

(** X16.  The two schema invariants hold in every store that requests
    lead to: after any sequence of requests every cart line still names
    an existing menu item and every stored order total still has at most
    six digits. *)
Lemma invariants_reachable reqs :
  ∀ s, cart_menuitems_exist s → order_totals_fit s →
       cart_menuitems_exist (serve reqs s) ∧ order_totals_fit (serve reqs s).
Proof.
  induction reqs as [| req reqs IH]; intros s Hfk Hfit; [done |].
  simpl. apply IH;
    [by apply cart_menuitems_exist_after | by apply order_totals_fit_after].
Qed.

(** * Further properties of the views *)

(** ** The menu listing *)

(** X1.  With [sort=price] the menu is listed by ascending price, and it
    lists the same rows, each as often, as the same request without the
    parameter. *)
Theorem menu_sorted_by_price (category : option pk) (s : Store) :
  let listed := MenuItemViewSet.get_queryset category (Some "price") s in
  StronglySorted MenuItemViewSet.by_price listed
  ∧ listed ≡ₚ MenuItemViewSet.get_queryset category None s.
Proof.
  unfold MenuItemViewSet.get_queryset.
  rewrite decide_True by done. rewrite decide_False by done.
  split; [apply StronglySorted_merge_sort; apply _ |].
  apply merge_sort_Permutation.
Qed.

Lemma menu_unsorted_elem category s k item :
  (k, item) ∈ MenuItemViewSet.get_queryset category None s
  ↔ menuitems s !! k = Some item
    ∧ ∀ c, category = Some c → MenuItem.category item = c.
Proof.
  unfold MenuItemViewSet.get_queryset. rewrite decide_False by done.
  destruct category as [c|].
  - rewrite list_elem_of_filter, elem_of_map_to_list. simpl.
    split; [intros [Hc Hk]; split; [done | congruence] |].
    intros [Hk Hc]. split; [by apply Hc | done].
  - rewrite elem_of_map_to_list. split; [by intros Hk | by intros [Hk _]].
Qed.

Lemma menu_unsorted_NoDup category s :
  NoDup (MenuItemViewSet.get_queryset category None s).*1.
Proof.
  unfold MenuItemViewSet.get_queryset. rewrite decide_False by done.
  destruct category as [c|]; [| apply NoDup_fst_map_to_list].
  apply (sublist_NoDup _ (map_to_list (menuitems s)).*1);
    [apply NoDup_fst_map_to_list | apply fmap_sublist, sublist_filter].
Qed.

Lemma menu_listing_perm category sort s :
  MenuItemViewSet.get_queryset category sort s
  ≡ₚ MenuItemViewSet.get_queryset category None s.
Proof.
  unfold MenuItemViewSet.get_queryset.
  destruct (decide (sort = Some "price")); [| by rewrite decide_False].
  rewrite decide_False by done. apply merge_sort_Permutation.
Qed.

(** X2.  Whatever the parameters, the menu lists exactly the stored menu
    items, those of the category when one is asked for, and no key
    twice. *)
Theorem menu_lists_category (category : option pk) (sort : option string)
    (s : Store) :
  NoDup (MenuItemViewSet.get_queryset category sort s).*1
  ∧ ∀ k item,
      (k, item) ∈ MenuItemViewSet.get_queryset category sort s
      ↔ menuitems s !! k = Some item
        ∧ ∀ c, category = Some c → MenuItem.category item = c.
Proof.
  split.
  - rewrite (menu_listing_perm category sort s).
    apply menu_unsorted_NoDup.
  - intros k item. rewrite (menu_listing_perm category sort s).
    apply menu_unsorted_elem.
Qed.

Example menu_listing_cases :
  MenuItemViewSet.get_queryset None (Some "price") Cases.busy
  = [(3%positive, {| MenuItem.title := "C"; MenuItem.price := 250;
                     MenuItem.category := 2 |});
     (2%positive, {| MenuItem.title := "B"; MenuItem.price := 500;
                     MenuItem.category := 1 |});
     (1%positive, {| MenuItem.title := "A"; MenuItem.price := 1000;
                     MenuItem.category := 1 |})]
  ∧ (MenuItemViewSet.get_queryset (Some 1%positive) (Some "price")
       Cases.busy).*1 = [2%positive; 1%positive]
  ∧ MenuItemViewSet.get_queryset (Some 9%positive) None Cases.busy = [].
Proof. by vm_compute. Qed.

(** ** Carts *)

Lemma cart_filter_other user other (m : gmap positive Cart.t) :
  other ≠ user →
  filter (λ kc, Cart.user kc.2 = other)
         (filter (λ kc, Cart.user kc.2 ≠ user) m)
  = filter (λ kc, Cart.user kc.2 = other) m.
Proof.
  intros Hne. apply map_filter_filter_l. intros k c _. simpl. congruence.
Qed.


(** What a request does to the table of carts. *)
Lemma after_carts req s :
  carts (after req s) = carts s
  ∨ carts (after req s)
    = filter (λ kc, Cart.user kc.2 ≠ caller req) (carts s)
  ∨ ∃ id row, carts s !! id = None ∧ Cart.user row = caller req
              ∧ is_Some (menuitems s !! Cart.menuitem row)
              ∧ carts (after req s) = <[id := row]> (carts s).
Proof.
  unfold after. destruct req; simpl.
  - unfold CartViewSet.create, bind, gets.
    destruct (menuitems s !! menuitem_id) eqn:Hitem; [| by left].
    destruct (PositiveIntegerField_valid quantity); simpl; [| by left].
    right. right.
    exists (new_pk (carts s)),
      {| Cart.user := user; Cart.menuitem := menuitem_id;
         Cart.quantity := Z.to_N quantity |}.
    split; [apply new_pk_fresh |]. split; [done |].
    split; [simpl; by rewrite Hitem | done].
  - right. by left.
  - by left.
  - destruct (create_from_cart_frame user s) as (_ & _ & [-> | ->] & _);
      [by left | right; by left].
  - left. by destruct (assign_order_store user id delivery_crew_id s)
      as [-> | (o & target & _ & _ & ->)].
  - left. by destruct (mark_delivered_store user id s)
      as [-> | (o & _ & _ & ->)].
  - left. unfold UserViewSet.list, bind, gets. by destruct (negb _).
  - left. unfold UserViewSet.set_manager, bind, check_permissions, bind, gets.
    destruct (IsAdmin user s); [| done]. unfold ret.
    destruct (add_to_group_frame "Manager" id s) as (_ & H & _).
    destruct (UserViewSet.add_to_group "Manager" id s); simpl in *;
      by rewrite H.
  - left. unfold UserViewSet.set_delivery, bind, check_permissions, bind, gets.
    destruct (IsManager user s); [| done]. unfold ret.
    destruct (add_to_group_frame "Delivery crew" id s) as (_ & H & _).
    destruct (UserViewSet.add_to_group "Delivery crew" id s); simpl in *;
      by rewrite H.
  - left. by destruct (users_assign_order_store user id order_id s)
      as [-> | (k & o & _ & _ & ->)].
Qed.

(** Deleting the lines of [user], or adding a line of [user], leaves the
    lines of [other] as they were. *)
Lemma cart_of_other_kept user other (m m' : gmap positive Cart.t) :
  user ≠ other →
  m' = m
  ∨ m' = filter (λ kc, Cart.user kc.2 ≠ user) m
  ∨ (∃ id row, m !! id = None ∧ Cart.user row = user
               ∧ m' = <[id := row]> m) →
  filter (λ kc, Cart.user kc.2 = other) m'
  = filter (λ kc, Cart.user kc.2 = other) m.
Proof.
  intros Hne [-> | [-> | (id & row & Hid & Hrow & ->)]].
  - done.
  - apply cart_filter_other. congruence.
  - apply map_filter_insert_not'; [simpl; congruence |].
    intros c Hc. congruence.
Qed.

(** X4.  The three actions of [views.py] that write cart lines write
    those of their caller alone: adding to the cart, clearing it and
    converting it into an order leave the cart lines of every other
    principal as they were, however the action ends. *)
Theorem cart_actions_touch_own_cart (user other menuitem_id : pk)
    (quantity : Z) (s : Store) :
  user ≠ other →
  CartViewSet.get_queryset other
    (store_of (CartViewSet.create user menuitem_id quantity s))
  = CartViewSet.get_queryset other s
  ∧ CartViewSet.get_queryset other (store_of (CartViewSet.clear user s))
    = CartViewSet.get_queryset other s
  ∧ CartViewSet.get_queryset other
      (store_of (OrderViewSet.create_from_cart user s))
    = CartViewSet.get_queryset other s.
Proof.
  intros Hne. unfold CartViewSet.get_queryset, Cart_filter_user.
  split_and!; apply (cart_of_other_kept user other _ _ Hne).
  - destruct (after_carts (CartCreate user menuitem_id quantity) s)
      as [H | [H | (id & row & Hid & Hrow & _ & H)]]; eauto 8.
  - destruct (after_carts (CartClear user) s)
      as [H | [H | (id & row & Hid & Hrow & _ & H)]]; eauto 8.
  - destruct (after_carts (OrdersCreateFromCart user) s)
      as [H | [H | (id & row & Hid & Hrow & _ & H)]]; eauto 8.
Qed.

Lemma cart_actions_touch_own_cart_witness :
  CartViewSet.get_queryset Fixture.bob
    (store_of (OrderViewSet.create_from_cart Fixture.alice Cases.busy))
  = CartViewSet.get_queryset Fixture.bob Cases.busy
  ∧ CartViewSet.get_queryset Fixture.bob Cases.busy ≠ ∅
  ∧ CartViewSet.get_queryset Fixture.alice
      (store_of (OrderViewSet.create_from_cart Fixture.alice Cases.busy))
    = ∅.
Proof.
  split_and!.
  - apply (cart_actions_touch_own_cart Fixture.alice Fixture.bob 1 1
             Cases.busy).
    by vm_compute.
  - apply (bool_decide_unpack _). by vm_compute.
  - by vm_compute.
Defined.

(** X5.  Adding to the cart.  An existing menu item with a quantity from
    0 to 2147483647, in range on every backend, is answered 201 and the
    line is stored, a quantity of zero included.  A menu item that does
    not exist raises a validation error (400).  A negative quantity is
    never answered 201, and an answer of 201 means that the menu item
    exists and the quantity is not negative.  A request that is not
    answered 201 writes nothing. *)
Theorem cart_create_validation (user menuitem_id : pk) (quantity : Z)
    (s : Store) :
  let r := CartViewSet.create user menuitem_id quantity s in
  let row := {| Cart.user := user; Cart.menuitem := menuitem_id;
                Cart.quantity := Z.to_N quantity |} in
  (is_Some (menuitems s !! menuitem_id) →
   (0 ≤ quantity ≤ PositiveIntegerField_max)%Z →
   carts s !! new_pk (carts s) = None
   ∧ r = Ok {| data := JCart (new_pk (carts s)) row; status_code := 201 |}
           (set_carts <[new_pk (carts s) := row]> s))
  ∧ (menuitems s !! menuitem_id = None → r = Raise ValidationError s)
  ∧ ((quantity < 0)%Z → http_status r ≠ 201)
  ∧ (http_status r = 201 →
     is_Some (menuitems s !! menuitem_id) ∧ (0 ≤ quantity)%Z)
  ∧ (http_status r ≠ 201 → store_of r = s).
Proof.
  simpl. unfold CartViewSet.create, bind, gets.
  destruct (menuitems s !! menuitem_id) as [item|] eqn:Hitem; simpl.
  - destruct (PositiveIntegerField_valid quantity) eqn:Hq; simpl.
    + apply PositiveIntegerField_valid_spec in Hq.
      unfold CartViewSet.perform_create, Cart_create, bind, gets, modify, ret.
      simpl. split_and!.
      * intros _ _. split; [apply new_pk_fresh | done].
      * done.
      * lia.
      * intros _. split; [eauto | lia].
      * done.
    + split_and!; try done.
      intros _ Hrange. apply PositiveIntegerField_valid_spec in Hrange.
      congruence.
  - split_and!; done.
Qed.

Example cart_create_zero_quantity :
  http_status (CartViewSet.create Fixture.alice 1 0 Fixture.bare) = 201
  ∧ map_to_list (carts (store_of
                          (CartViewSet.create Fixture.alice 1 0 Fixture.bare)))
    = [(1%positive, {| Cart.user := Fixture.alice; Cart.menuitem := 1;
                       Cart.quantity := 0 |})]
  ∧ http_status (CartViewSet.create Fixture.alice 1 2147483647 Fixture.bare)
    = 201
  ∧ store_of (CartViewSet.create Fixture.alice 1 (-1) Fixture.bare)
    = Fixture.bare
  ∧ http_status (CartViewSet.create Fixture.alice 9 1 Fixture.bare) = 400.
Proof. by vm_compute. Qed.

(** ** Granting roles *)

Lemma add_to_group_eval name id s :
  UserViewSet.add_to_group name id s
  = match users s !! id with
    | None => Raise (DoesNotExist "User") s
    | Some u =>
        if bool_decide (name ∈ auth_groups s)
        then Ok tt (set_users <[id := with_group name u]> s)
        else Raise (DoesNotExist "Group") s
    end.
Proof.
  unfold UserViewSet.add_to_group, bind, objects_get, bind, gets.
  destruct (users s !! id); [| done]. unfold ret.
  by destruct (bool_decide (name ∈ auth_groups s)).
Qed.

(** Membership after a grant: the grantee has the group, and nothing
    else has changed. *)
Lemma in_group_with_group name id u s n other :
  users s !! id = Some u →
  in_group n other (set_users <[id := with_group name u]> s)
  = if decide (other = id ∧ n = name) then true else in_group n other s.
Proof.
  intros Hu. unfold in_group. simpl.
  destruct (decide (other = id)) as [-> | Hne].
  - rewrite lookup_insert_eq, Hu. simpl.
    destruct (decide (n = name)) as [-> | Hn].
    + rewrite decide_True by done. apply bool_decide_eq_true.
      apply elem_of_union_l. by apply elem_of_singleton.
    + rewrite decide_False by tauto. apply bool_decide_ext.
      rewrite elem_of_union, elem_of_singleton. tauto.
  - rewrite lookup_insert_ne by done. rewrite decide_False by tauto. done.
Qed.


Lemma set_delivery_eval user id s :
  UserViewSet.set_delivery user id s
  = if negb (IsManager user s) then Raise PermissionDenied s
    else match users s !! id with
         | None => Raise (DoesNotExist "User") s
         | Some u =>
             if bool_decide ("Delivery crew" ∈ auth_groups s)
             then Ok {| data := JStatus "delivery crew added";
                        status_code := 200 |}
                     (set_users <[id := with_group "Delivery crew" u]> s)
             else Raise (DoesNotExist "Group") s
         end.
Proof.
  unfold UserViewSet.set_delivery, bind, check_permissions, bind, gets.
  destruct (IsManager user s); simpl; [| done]. unfold ret.
  rewrite add_to_group_eval. destruct (users s !! id); [| done].
  by destruct (bool_decide ("Delivery crew" ∈ auth_groups s)).
Qed.

Lemma set_manager_eval user id s :
  UserViewSet.set_manager user id s
  = if negb (IsAdmin user s) then Raise PermissionDenied s
    else match users s !! id with
         | None => Raise (DoesNotExist "User") s
         | Some u =>
             if bool_decide ("Manager" ∈ auth_groups s)
             then Ok {| data := JStatus "manager added";
                        status_code := 200 |}
                     (set_users <[id := with_group "Manager" u]> s)
             else Raise (DoesNotExist "Group") s
         end.
Proof.
  unfold UserViewSet.set_manager, bind, check_permissions, bind, gets.
  destruct (IsAdmin user s); simpl; [| done]. unfold ret.
  rewrite add_to_group_eval. destruct (users s !! id); [| done].
  by destruct (bool_decide ("Manager" ∈ auth_groups s)).
Qed.



(** X8.  Grant, then assign: once a Manager has put another existing
    user into Delivery crew, the Manager's [assign_order] of an
    unassigned order to that user answers 202 and the order is assigned
    to the user, whatever the user's groups were before. *)
Theorem grant_then_assign (manager target id : pk) (o : Order.t)
    (s : Store) :
  order_totals_fit s →
  IsManager manager s = true →
  is_Some (users s !! target) →
  "Delivery crew" ∈ auth_groups s →
  target ≠ manager →
  orders s !! id = Some o →
  Order.delivery_crew o = None →
  let s1 := after (UsersSetDelivery manager target) s in
  let r := OrderViewSet.assign_order manager id (Some target) s1 in
  http_status r = 202
  ∧ orders (store_of r) !! id = Some (assigned_to target o).
Proof.
  intros Hfit Hman [u Hu] Hg Hne Ho Hnone. simpl. unfold after. simpl.
  rewrite set_delivery_eval, Hman, Hu. simpl.
  rewrite bool_decide_eq_true_2 by done. simpl.
  rewrite assign_order_eval.
  unfold IsManager, IsDeliveryCrew.
  rewrite !(in_group_with_group _ _ u) by done.
  rewrite decide_False by (intros [? _]; congruence).
  unfold IsManager in Hman. rewrite Hman. simpl. rewrite Ho.
  destruct (decide (target = target)) as [_ | ?]; [| done].
  rewrite lookup_insert_eq, Hnone. rewrite decide_True by done. simpl.
  rewrite decide_False by done.
  rewrite (Hfit id o Ho). simpl. by rewrite lookup_insert_eq.
Qed.

Lemma grant_then_assign_witness :
  let s1 := after (UsersSetDelivery Fixture.bob Fixture.alice)
              Fixture.placed in
  IsDeliveryCrew Fixture.alice Fixture.placed = false
  ∧ http_status (OrderViewSet.assign_order Fixture.bob 1
                   (Some Fixture.alice) s1) = 202.
Proof.
  split; [by vm_compute |].
  destruct (grant_then_assign Fixture.bob Fixture.alice 1
              {| Order.user := Fixture.alice; Order.delivery_crew := None;
                 Order.status := false; Order.total := 2500 |}
              Fixture.placed) as [H _];
    [apply (bool_decide_unpack _); by vm_compute
    | by vm_compute
    | apply (bool_decide_unpack _); by vm_compute
    | apply (bool_decide_unpack _); by vm_compute
    | discriminate
    | by vm_compute
    | done
    | exact H].
Defined.


(** ** Assignment along the user route *)

Lemma users_assign_order_eval user id k s :
  UserViewSet.assign_order user id (Some k) s
  = if negb (IsManager user s) then Raise PermissionDenied s
    else match orders s !! k with
         | None => Raise (DoesNotExist "Order") s
         | Some o =>
             match users s !! id with
             | None => Raise (DoesNotExist "User") s
             | Some _ =>
                 if decimal_fits (Order.total o)
                 then Ok {| data := JStatus "order assigned";
                            status_code := 200 |}
                         (set_orders <[k := assigned_to id o]> s)
                 else Raise InvalidOperation s
             end
         end.
Proof.
  unfold UserViewSet.assign_order, bind, check_permissions, bind, gets.
  destruct (IsManager user s); simpl; [| done]. unfold ret.
  unfold objects_get, bind, gets.
  destruct (orders s !! k) as [o|]; [| done]. unfold ret.
  destruct (users s !! id); [| done].
  unfold Order_save. simpl. by destruct (decimal_fits (Order.total o)).
Qed.

(** X9.  [assign_order] of the user route answers 200 exactly when the
    caller is a Manager and the order and the user exist.  It asks
    nothing about the order's current assignee, the user's groups or
    whether the user is the caller, and writes the user into the order's
    [delivery_crew], leaving owner, status and total.  Otherwise nothing
    is written: the caller is denied (403), or the missing order or user,
    or a request without [order_id], is an uncaught [DoesNotExist] (500). *)
Theorem users_assign_order_unguarded (user id k : pk) (s : Store) :
  order_totals_fit s →
  let r := UserViewSet.assign_order user id (Some k) s in
  (http_status r = 200
   ↔ IsManager user s = true ∧ is_Some (orders s !! k)
     ∧ is_Some (users s !! id))
  ∧ (http_status r = 200 →
     ∃ o, orders s !! k = Some o
          ∧ store_of r = set_orders <[k := assigned_to id o]> s)
  ∧ (http_status r ≠ 200 → store_of r = s)
  ∧ (IsManager user s = false → r = Raise PermissionDenied s)
  ∧ (IsManager user s = true → orders s !! k = None →
     r = Raise (DoesNotExist "Order") s ∧ http_status r = 500)
  ∧ (IsManager user s = true → is_Some (orders s !! k) →
     users s !! id = None →
     r = Raise (DoesNotExist "User") s ∧ http_status r = 500)
  ∧ (IsManager user s = true →
     UserViewSet.assign_order user id None s
     = Raise (DoesNotExist "Order") s).
Proof.
  intros Hfit. simpl.
  assert (IsManager user s = true →
          UserViewSet.assign_order user id None s
          = Raise (DoesNotExist "Order") s) as Hnone.
  { intros Hman. unfold UserViewSet.assign_order, bind.
    by rewrite check_permissions_true. }
  rewrite users_assign_order_eval.
  destruct (IsManager user s) eqn:Hman; simpl; [| by close_case].
  destruct (orders s !! k) as [o|] eqn:Ho; simpl; [| by close_case].
  destruct (users s !! id) as [u|] eqn:Hu; simpl; [| by close_case].
  rewrite (Hfit k o Ho). simpl.
  split_and!; try done. intros _. by exists o.
Qed.

Lemma users_assign_order_unguarded_witness :
  let r := UserViewSet.assign_order Fixture.bob Fixture.bob
             (Some 1%positive) Fixture.assigned in
  IsDeliveryCrew Fixture.bob Fixture.assigned = false
  ∧ http_status r = 200
  ∧ Order.delivery_crew <$> orders (store_of r) !! 1%positive
    = Some (Some Fixture.bob).
Proof.
  destruct (users_assign_order_unguarded Fixture.bob Fixture.bob 1
              Fixture.assigned) as (Hiff & _);
    [apply (bool_decide_unpack _); by vm_compute |].
  split; [by vm_compute |]. split; [| by vm_compute].
  apply Hiff. split_and!;
    [by vm_compute | apply (bool_decide_unpack _); by vm_compute
    | apply (bool_decide_unpack _); by vm_compute].
Defined.

(** ** Delivery *)

(** X10.  [mark_delivered] writes at most one thing: the status of the
    order it is called on, which becomes delivered.  Users, carts, order
    lines, every other order, and the owner, assignee and total of that
    order are as before, however the call ends. *)
Theorem mark_delivered_frame (user id : pk) (s : Store) :
  let s' := store_of (OrderViewSet.mark_delivered user id s) in
  users s' = users s ∧ menuitems s' = menuitems s ∧ carts s' = carts s
  ∧ orderitems s' = orderitems s
  ∧ dom (orders s') = dom (orders s)
  ∧ ∀ k o, orders s !! k = Some o →
      orders s' !! k = Some o
      ∨ (k = id ∧ Order.status o = false
         ∧ orders s' !! k = Some (delivered o)).
Proof.
  simpl.
  destruct (mark_delivered_store user id s) as [-> | (o & Ho & Hst & ->)].
  - split_and!; try done. intros k o' Hk. by left.
  - simpl. split_and!; try done.
    + rewrite dom_insert_L. apply elem_of_dom_2 in Ho.
      apply (anti_symm (⊆)); [| apply union_subseteq_r].
      apply union_least; [by apply singleton_subseteq_l | done].
    + intros k o' Hk. destruct (decide (k = id)) as [-> | Hne].
      * right. simplify_eq. by rewrite lookup_insert_eq.
      * left. by rewrite lookup_insert_ne.
Qed.

(** X11.  Delivery does not wait for an assignment: a caller who is in
    Delivery crew and also a Manager or staff can mark any placed order
    delivered, assigned to somebody else or to nobody; the order is then
    delivered with the assignee it had. *)
Theorem mark_delivered_by_manager_crew (user id : pk) (o : Order.t)
    (s : Store) :
  order_totals_fit s →
  IsDeliveryCrew user s = true →
  IsManager user s = true ∨ user_is_staff user s = true →
  orders s !! id = Some o →
  Order.status o = false →
  OrderViewSet.mark_delivered user id s
  = Ok {| data := JStatus "Order marked as delivered"; status_code := 200 |}
       (set_orders <[id := delivered o]> s)
  ∧ Order.delivery_crew (delivered o) = Order.delivery_crew o.
Proof.
  intros Hfit Hcrew Hall Ho Hst. split; [| done].
  rewrite (mark_delivered_found user id o s); [| done |].
  - by rewrite Hst, (Hfit id o Ho).
  - rewrite get_queryset_all; [done |]. unfold IsManager in Hall.
    destruct Hall as [-> | ->]; [done | apply orb_true_r].
Qed.

Lemma mark_delivered_by_manager_crew_witness :
  Order.delivery_crew <$> orders Cases.with_frank !! 1%positive = Some None
  ∧ http_status (OrderViewSet.mark_delivered Cases.frank 1 Cases.with_frank)
    = 200.
Proof.
  split; [by vm_compute |].
  destruct (mark_delivered_by_manager_crew Cases.frank 1
              {| Order.user := Fixture.alice; Order.delivery_crew := None;
                 Order.status := false; Order.total := 1500 |}
              Cases.with_frank) as [H _];
    [apply (bool_decide_unpack _); by vm_compute
    | by vm_compute | left; by vm_compute | by vm_compute | done |].
  by rewrite H.
Defined.

(** ** New orders *)

(** Whether the owner of an order that nobody is assigned to is shown
    it. *)
Lemma own_unassigned_order_listed user id o s :
  orders s !! id = Some o →
  Order.user o = user →
  Order.delivery_crew o = None →
  is_Some (OrderViewSet.get_queryset user s !! id)
  ↔ holds Manager user s || holds Admin user s = true
    ∨ holds DeliveryCrew user s = false.
Proof.
  intros Ho Huser Hnone. unfold OrderViewSet.get_queryset. simpl.
  destruct (in_group "Manager" user s || user_is_staff user s); simpl.
  - split; [by left | by eauto].
  - destruct (in_group "Delivery crew" user s); simpl.
    + split; [| by intros [? | ?]].
      intros [o' [Ho' Hc]%map_lookup_filter_Some]. simpl in Hc.
      simplify_eq.
    + split; [by right |]. intros _. exists o.
      by apply map_lookup_filter_Some.
Qed.

(** X12.  [POST /orders/] creates an order without reading the cart: a
    new order of the caller, placed, unassigned, with total 0, under a
    key not in use; carts and order lines are left as they were.  The
    caller is shown the new order unless the caller is in Delivery crew
    without being Manager or staff. *)
Theorem orders_create_direct (user : pk) (s : Store) :
  let r := OrderViewSet.create user s in
  let s' := store_of r in
  let order := {| Order.user := user; Order.delivery_crew := None;
                  Order.status := false; Order.total := 0 |} in
  ∃ id,
    orders s !! id = None
    ∧ http_status r = 201
    ∧ orders s' = <[id := order]> (orders s)
    ∧ carts s' = carts s ∧ orderitems s' = orderitems s
    ∧ users s' = users s
    ∧ (is_Some (OrderViewSet.get_queryset user s' !! id)
       ↔ holds Manager user s || holds Admin user s = true
         ∨ holds DeliveryCrew user s = false).
Proof.
  simpl. exists (new_pk (orders s)).
  unfold OrderViewSet.create, OrderViewSet.perform_create, Order_create.
  unfold bind, gets, modify, ret. simpl.
  split_and!; try done; [apply new_pk_fresh |].
  match goal with
  | |- is_Some (OrderViewSet.get_queryset user ?st !! ?id) ↔ _ =>
      eapply (own_unassigned_order_listed user id _ st);
        [simpl; apply lookup_insert_eq | done | done]
  end.
Qed.

(** X13.  After a conversion the owner is shown the new order unless the
    owner is in Delivery crew without being Manager or staff: such an
    owner is listed only the orders assigned to them, and the new order
    is assigned to nobody. *)
Theorem converted_order_visibility (user : pk) (s : Store) :
  cart_menuitems_exist s →
  CartViewSet.get_queryset user s ≠ ∅ →
  decimal_fits (cart_total user s) = true →
  let s' := store_of (OrderViewSet.create_from_cart user s) in
  ∃ id o,
    orders s !! id = None
    ∧ orders s' !! id = Some o
    ∧ Order.user o = user
    ∧ (is_Some (OrderViewSet.get_queryset user s' !! id)
       ↔ holds Manager user s || holds Admin user s = true
         ∨ holds DeliveryCrew user s = false).
Proof.
  intros Hfk Hne Hfit. simpl.
  destruct (create_from_cart_fits user s Hfk Hne Hfit)
    as (resp & s' & Hrun & _ & Hconv).
  rewrite Hrun. simpl.
  destruct Hconv as (id & items & Hid & _ & _ & _ & ->).
  eexists id, _. split; [done |]. split; [apply lookup_insert_eq |].
  split; [done |].
  match goal with
  | |- is_Some (OrderViewSet.get_queryset user ?st !! id) ↔ _ =>
      eapply (own_unassigned_order_listed user id _ st);
        [simpl; apply lookup_insert_eq | done | done]
  end.
Qed.

Lemma converted_order_visibility_witness :
  let s' := store_of (OrderViewSet.create_from_cart Cases.erin
                        Cases.with_erin) in
  http_status (OrderViewSet.create_from_cart Cases.erin Cases.with_erin)
  = 201
  ∧ (∃ id o, orders Cases.with_erin !! id = None
             ∧ orders s' !! id = Some o ∧ Order.user o = Cases.erin)
  ∧ OrderViewSet.get_queryset Cases.erin s' = ∅.
Proof.
  destruct (converted_order_visibility Cases.erin Cases.with_erin)
    as (id & o & H1 & H2 & H3 & _);
    [apply (bool_decide_unpack _); by vm_compute
    | apply (bool_decide_unpack _); by vm_compute
    | by vm_compute |].
  split; [by vm_compute |]. split; [by exists id, o | by vm_compute].
Defined.

(** X14.  A conversion that answered 201 has drained the cart: the same
    request again answers 400 "Cart is empty" and writes nothing, so no
    second order comes of it. *)
Theorem create_from_cart_twice (user : pk) (s : Store) :
  http_status (OrderViewSet.create_from_cart user s) = 201 →
  let s' := store_of (OrderViewSet.create_from_cart user s) in
  OrderViewSet.create_from_cart user s'
  = Ok {| data := JError "Cart is empty"; status_code := 400 |} s'.
Proof.
  intros Hok. simpl. apply create_from_cart_no_lines.
  rewrite create_from_cart_unfold in Hok |- *.
  destruct (decide (Cart_filter_user user s = ∅)); [simpl in Hok; lia |].
  simpl in *.
  destruct (OrderViewSet.copy_items _ _ _ _) as [total s2 | e s2];
    [| destruct e; simpl in Hok; lia].
  destruct (decimal_fits total); [| simpl in Hok; lia].
  simpl. apply cart_drained.
Qed.

Lemma create_from_cart_twice_witness :
  let s' := store_of (OrderViewSet.create_from_cart Fixture.alice
                        Fixture.shopping) in
  OrderViewSet.create_from_cart Fixture.alice s'
  = Ok {| data := JError "Cart is empty"; status_code := 400 |} s'.
Proof.
  apply (create_from_cart_twice Fixture.alice Fixture.shopping).
  by vm_compute.
Defined.

(** ** From the cart to the order *)

(** X15.  Add, then order: when a principal with an empty cart adds a
    quantity of an existing menu item, within the range of the quantity
    column, and converts the cart, the answer is 201 and the new order's
    total is the item's price times the quantity, provided that product
    has at most six digits; the cart is empty again. *)
Theorem add_then_order (user menuitem_id : pk) (quantity : Z)
    (item : MenuItem.t) (s : Store) :
  cart_menuitems_exist s →
  CartViewSet.get_queryset user s = ∅ →
  menuitems s !! menuitem_id = Some item →
  (0 ≤ quantity ≤ PositiveIntegerField_max)%Z →
  decimal_fits (MenuItem.price item * quantity) = true →
  let s1 := after (CartCreate user menuitem_id quantity) s in
  let r := OrderViewSet.create_from_cart user s1 in
  http_status r = 201
  ∧ CartViewSet.get_queryset user (store_of r) = ∅
  ∧ ∃ id, orders s !! id = None
          ∧ orders (store_of r)
            = <[id := {| Order.user := user; Order.delivery_crew := None;
                         Order.status := false;
                         Order.total := MenuItem.price item * quantity |}]>
                (orders s).
Proof.
  intros Hfk Hempty Hitem Hq Hfit. simpl.
  set (row := {| Cart.user := user; Cart.menuitem := menuitem_id;
                 Cart.quantity := Z.to_N quantity |}).
  set (k := new_pk (carts s)).
  assert (after (CartCreate user menuitem_id quantity) s
          = set_carts <[k := row]> s) as ->.
  { unfold after. simpl. unfold CartViewSet.create, bind, gets.
    rewrite Hitem.
    assert (PositiveIntegerField_valid quantity = true) as ->
      by (by apply PositiveIntegerField_valid_spec).
    done. }
  set (s1 := set_carts <[k := row]> s).
  assert (Cart_filter_user user s1 = {[k := row]}) as Hcart.
  { unfold Cart_filter_user, s1. simpl.
    rewrite map_filter_insert_True by done.
    unfold CartViewSet.get_queryset, Cart_filter_user in Hempty.
    rewrite Hempty. apply insert_empty. }
  assert (cart_total user s1 = (MenuItem.price item * quantity)%Z) as Htotal.
  { unfold cart_total. rewrite Hcart, map_to_list_singleton. simpl.
    unfold line_price. simpl. rewrite Hitem. simpl.
    rewrite Z2N.id by lia. lia. }
  assert (cart_menuitems_exist s1) as Hfk1.
  { apply map_Forall_insert_2; [simpl; by rewrite Hitem | exact Hfk]. }
  destruct (create_from_cart_fits user s1 Hfk1)
    as (resp & s' & Hrun & Hst & Hconv).
  { rewrite Hcart. apply insert_non_empty. }
  { by rewrite Htotal. }
  rewrite Hrun. simpl. split; [done |].
  destruct (converted_inv user s1 s' Hconv) as [Hdrained _].
  split; [done |].
  destruct Hconv as (id & items & Hid & _ & _ & _ & ->).
  exists id. split; [done |]. simpl. by rewrite Htotal.
Qed.

Lemma add_then_order_witness :
  let s1 := after (CartCreate Fixture.alice 2 3) Fixture.bare in
  let r := OrderViewSet.create_from_cart Fixture.alice s1 in
  http_status r = 201
  ∧ Order.total <$> orders (store_of r) !! 1%positive = Some 1500%Z.
Proof.
  destruct (add_then_order Fixture.alice 2 3
              {| MenuItem.title := "B"; MenuItem.price := 500;
                 MenuItem.category := 1 |} Fixture.bare)
    as (H & _);
    [apply (bool_decide_unpack _); by vm_compute
    | by vm_compute | by vm_compute | by vm_compute | by vm_compute |].
  split; [exact H | by vm_compute].
Defined.

(** ** What the actions never do *)

(** The loop never touches an order line that is already there. *)
Lemma copy_items_grows order l :
  ∀ total s,
    orderitems s
    ⊆ orderitems (store_of (OrderViewSet.copy_items order l total s)).
Proof.
  induction l as [| [k c] l IH]; intros total s; [done |].
  simpl. rewrite bind_eq. unfold objects_get. rewrite bind_eq.
  unfold gets at 1.
  destruct (menuitems s !! Cart.menuitem c) as [item|]; [| done].
  unfold ret at 1. rewrite bind_eq.
  unfold OrderItem_create, bind, gets, modify, ret.
  etrans; [| apply IH]. simpl.
  apply insert_subseteq, new_pk_fresh.
Qed.

(** X19.  Conversion only adds order lines: whatever the cart holds and
    however [create_from_cart] ends, every order line that was stored is
    still stored under its key with the same order, menu item and
    quantity. *)
Theorem create_from_cart_keeps_order_lines (user : pk) (s : Store) :
  orderitems s ⊆ orderitems (store_of (OrderViewSet.create_from_cart user s)).
Proof.
  rewrite create_from_cart_unfold.
  destruct (decide (Cart_filter_user user s = ∅)); [done |]. simpl.
  pose proof (copy_items_grows (new_pk (orders s))
                (map_to_list (Cart_filter_user user s)) 0%Z
                (set_orders
                   <[new_pk (orders s) :=
                       {| Order.user := user; Order.delivery_crew := None;
                          Order.status := false; Order.total := 0 |}]> s))
    as Hloop.
  destruct (OrderViewSet.copy_items _ _ _ _) as [total s2 | e s2];
    simpl in *; [| done].
  by destruct (decimal_fits total).
Qed.

(** The shapes of the store a request leaves, conversion apart: the
    store it found, or that store with other carts, with one new order,
    with one order delivered or reassigned, or with one user in one more
    group. *)
Lemma after_shape req s :
  (∃ user, req = OrdersCreateFromCart user)
  ∨ after req s = s
  ∨ (∃ f, after req s = set_carts f s)
  ∨ (∃ id o, orders s !! id = None
             ∧ after req s = set_orders <[id := o]> s)
  ∨ (∃ id o, orders s !! id = Some o
             ∧ after req s = set_orders <[id := delivered o]> s)
  ∨ (∃ id o target,
       orders s !! id = Some o
       ∧ after req s = set_orders <[id := assigned_to target o]> s)
  ∨ (∃ id u name, users s !! id = Some u
                  ∧ (name = "Manager" ∨ name = "Delivery crew")
                  ∧ after req s = set_users <[id := with_group name u]> s).
Proof.
  unfold after. destruct req; simpl.
  - right. unfold CartViewSet.create, bind, gets.
    destruct (menuitems s !! menuitem_id); [| by left].
    destruct (PositiveIntegerField_valid quantity); simpl; [| by left].
    right. left. by eexists.
  - right. right. left. by eexists.
  - do 3 right. left. eexists _, _. split; [apply new_pk_fresh | done].
  - left. by eexists.
  - right.
    destruct (assign_order_store user id delivery_crew_id s)
      as [-> | (o & target & Ho & _ & ->)]; [by left |].
    do 4 right. left. by exists id, o, target.
  - right.
    destruct (mark_delivered_store user id s) as [-> | (o & Ho & _ & ->)];
      [by left |].
    do 3 right. left. by exists id, o.
  - right. left. unfold UserViewSet.list, bind, gets. by destruct (negb _).
  - right. rewrite set_manager_eval.
    destruct (negb (IsAdmin user s)); [by left |].
    destruct (users s !! id) as [u|] eqn:Hu; [| by left].
    destruct (bool_decide _); [| by left].
    do 5 right. exists id, u, "Manager". eauto.
  - right. rewrite set_delivery_eval.
    destruct (negb (IsManager user s)); [by left |].
    destruct (users s !! id) as [u|] eqn:Hu; [| by left].
    destruct (bool_decide _); [| by left].
    do 5 right. exists id, u, "Delivery crew". eauto.
  - right.
    destruct (users_assign_order_store user id order_id s)
      as [-> | (k & o & _ & Ho & ->)]; [by left |].
    do 4 right. left. by exists k, o, id.
Qed.

Lemma after_order_kept req s id o :
  orders s !! id = Some o →
  ∃ o', orders (after req s) !! id = Some o'
        ∧ Order.user o' = Order.user o
        ∧ Order.total o' = Order.total o
        ∧ (Order.status o = true → Order.status o' = true).
Proof.
  intros Ho.
  destruct (after_shape req s)
    as [[user ->] | [-> | [[f ->] | [(k & o1 & Hk & ->)
       | [(k & o1 & Hk & ->) | [(k & o1 & t & Hk & ->)
       | (k & u & name & _ & _ & ->)]]]]]]; simpl; eauto.
  - unfold after. simpl.
    destruct (create_from_cart_frame user s) as (_ & _ & _ & Hord).
    destruct Hord as [-> | (o1 & _ & ->)]; [eauto |].
    exists o. rewrite lookup_insert_ne; [done |].
    intros Heq. rewrite <- Heq, new_pk_fresh in Ho. done.
  - exists o. rewrite lookup_insert_ne; [done | congruence].
  - destruct (decide (k = id)) as [-> | Hne].
    + simplify_eq. rewrite lookup_insert_eq. by eexists.
    + rewrite lookup_insert_ne by done. eauto.
  - destruct (decide (k = id)) as [-> | Hne].
    + simplify_eq. rewrite lookup_insert_eq. by eexists.
    + rewrite lookup_insert_ne by done. eauto.
Qed.

(** X17.  The actions that [views.py] writes out for orders keep an
    assignee that is set: after [POST /orders/], [create_from_cart],
    [assign_order] on the order route and [mark_delivered], sent by
    anybody with any arguments and however they end, an order that had
    an assignee is still stored with that assignee. *)
Theorem order_actions_keep_assignee (user id : pk)
    (delivery_crew_id : option pk) (k : pk) (o : Order.t) (s : Store) :
  orders s !! k = Some o →
  is_Some (Order.delivery_crew o) →
  let kept (r : Result Response) :=
    ∃ o', orders (store_of r) !! k = Some o'
          ∧ Order.delivery_crew o' = Order.delivery_crew o in
  kept (OrderViewSet.create user s)
  ∧ kept (OrderViewSet.create_from_cart user s)
  ∧ kept (OrderViewSet.assign_order user id delivery_crew_id s)
  ∧ kept (OrderViewSet.mark_delivered user id s).
Proof.
  intros Ho Hset. simpl. split_and!.
  - exact (assignee_kept (OrdersCreate user) s k o eq_refl Ho Hset).
  - exact (assignee_kept (OrdersCreateFromCart user) s k o eq_refl Ho Hset).
  - exact (assignee_kept (OrdersAssignOrder user id delivery_crew_id)
             s k o eq_refl Ho Hset).
  - exact (assignee_kept (OrdersMarkDelivered user id) s k o eq_refl Ho Hset).
Qed.

Lemma order_actions_keep_assignee_witness :
  let r := OrderViewSet.assign_order Fixture.bob 1 (Some Fixture.dave)
             Fixture.assigned in
  http_status r = 400
  ∧ ∃ o', orders (store_of r) !! 1%positive = Some o'
          ∧ Order.delivery_crew o' = Some Fixture.carol.
Proof.
  split; [by vm_compute |].
  destruct (order_actions_keep_assignee Fixture.bob 1 (Some Fixture.dave) 1
              {| Order.user := Fixture.alice;
                 Order.delivery_crew := Some Fixture.carol;
                 Order.status := false; Order.total := 2500 |}
              Fixture.assigned)
    as (_ & _ & H & _); [by vm_compute | by eexists |].
  exact H.
Defined.

(** X18.  The actions that [views.py] writes out for orders never remove
    an order and never change its owner or its total, and a delivered
    order stays delivered: this holds after [POST /orders/],
    [create_from_cart], [assign_order] on the order route,
    [mark_delivered] and [assign_order] on the user route, sent by
    anybody with any arguments and however they end. *)
Theorem order_actions_keep_owner_total (user id : pk)
    (delivery_crew_id order_id : option pk) (k : pk) (o : Order.t)
    (s : Store) :
  orders s !! k = Some o →
  let kept (r : Result Response) :=
    ∃ o', orders (store_of r) !! k = Some o'
          ∧ Order.user o' = Order.user o
          ∧ Order.total o' = Order.total o
          ∧ (Order.status o = true → Order.status o' = true) in
  kept (OrderViewSet.create user s)
  ∧ kept (OrderViewSet.create_from_cart user s)
  ∧ kept (OrderViewSet.assign_order user id delivery_crew_id s)
  ∧ kept (OrderViewSet.mark_delivered user id s)
  ∧ kept (UserViewSet.assign_order user id order_id s).
Proof.
  intros Ho. simpl. split_and!.
  - exact (after_order_kept (OrdersCreate user) s k o Ho).
  - exact (after_order_kept (OrdersCreateFromCart user) s k o Ho).
  - exact (after_order_kept (OrdersAssignOrder user id delivery_crew_id)
             s k o Ho).
  - exact (after_order_kept (OrdersMarkDelivered user id) s k o Ho).
  - exact (after_order_kept (UsersAssignOrder user id order_id) s k o Ho).
Qed.

Lemma order_actions_keep_owner_total_witness :
  let r := UserViewSet.assign_order Fixture.bob Fixture.dave
             (Some 1%positive) Fixture.assigned in
  http_status r = 200
  ∧ ∃ o', orders (store_of r) !! 1%positive = Some o'
          ∧ Order.user o' = Fixture.alice
          ∧ Order.total o' = 2500%Z.
Proof.
  split; [by vm_compute |].
  destruct (order_actions_keep_owner_total Fixture.bob Fixture.dave
              None (Some 1%positive) 1
              {| Order.user := Fixture.alice;
                 Order.delivery_crew := Some Fixture.carol;
                 Order.status := false; Order.total := 2500 |}
              Fixture.assigned)
    as (_ & _ & _ & _ & o' & H1 & H2 & H3 & _); [by vm_compute |].
  by exists o'.
Defined.



(** ** Invariants, at work *)

Lemma invariants_reachable_witness :
  let s := serve [CartCreate Fixture.alice 1 1000;
                  OrdersCreateFromCart Fixture.alice;
                  CartCreate Fixture.bob 2 1;
                  OrdersCreateFromCart Fixture.bob] Fixture.bare in
  cart_menuitems_exist s ∧ order_totals_fit s.
Proof.
  apply (invariants_reachable
           [CartCreate Fixture.alice 1 1000;
            OrdersCreateFromCart Fixture.alice;
            CartCreate Fixture.bob 2 1;
            OrdersCreateFromCart Fixture.bob] Fixture.bare);
    apply (bool_decide_unpack _); by vm_compute.
Defined.

(** ** Deleting from the menu *)



(** Deleting menu items keeps the foreign key of the carts. *)
Lemma delete_menuitems_fk gone s :
  cart_menuitems_exist s → cart_menuitems_exist (delete_menuitems gone s).
Proof.
  intros Hfk k c [Hk Hkeep]%map_lookup_filter_Some. simpl in *.
  destruct (Hfk k c Hk) as [item Hitem]. exists item.
  by apply map_lookup_filter_Some.
Qed.


Example menuitem_destroy_cases :
  let s' := store_of (MenuItemViewSet.destroy None None 2 Cases.busy) in
  dom (menuitems s') = {[1%positive; 3%positive]}
  ∧ dom (carts Cases.busy) = {[1%positive; 2%positive; 3%positive]}
  ∧ dom (carts s') = {[3%positive]}
  ∧ dom (orderitems s') = {[1%positive]}
  ∧ Order.total <$> orders s' !! 1%positive = Some 1500%Z
  ∧ MenuItemViewSet.destroy (Some 2%positive) None 2 Cases.busy
    = Raise Http404 Cases.busy.
Proof. by vm_compute. Qed.

(** X22.  Deleting a category answers 404 and writes nothing when the
    category does not exist.  Otherwise the category is gone with every
    menu item of it, and with every cart line and order line that names
    such an item; the menu items of other categories, the lines that name
    them, and all orders stay, and every remaining cart line still names
    an existing item. *)
Theorem category_destroy_cascades (id : pk) (s : Store) :
  let r := CategoryViewSet.destroy id s in
  let s' := store_of r in
  let of_category k :=
    ∃ item, menuitems s !! k = Some item ∧ MenuItem.category item = id in
  (categories s !! id = None → r = Raise Http404 s)
  ∧ (is_Some (categories s !! id) →
     r = Ok tt s'
     ∧ categories s' = delete id (categories s)
     ∧ (∀ k item, menuitems s' !! k = Some item
                  ↔ menuitems s !! k = Some item
                    ∧ MenuItem.category item ≠ id)
     ∧ (∀ k c, carts s' !! k = Some c
               ↔ carts s !! k = Some c ∧ ¬ of_category (Cart.menuitem c))
     ∧ (∀ k l, orderitems s' !! k = Some l
               ↔ orderitems s !! k = Some l
                 ∧ ¬ of_category (OrderItem.menuitem l))
     ∧ orders s' = orders s ∧ users s' = users s
     ∧ (cart_menuitems_exist s → cart_menuitems_exist s')).
Proof.
  simpl. unfold CategoryViewSet.destroy, bind, gets.
  assert (∀ k, k ∈ dom (filter (λ ki : positive * MenuItem.t,
                                  MenuItem.category ki.2 = id) (menuitems s))
               ↔ ∃ item, menuitems s !! k = Some item
                         ∧ MenuItem.category item = id) as Hgone.
  { intros k. rewrite elem_of_dom. unfold is_Some.
    by setoid_rewrite map_lookup_filter_Some. }
  destruct (categories s !! id) as [cat|] eqn:Hcat.
  - split; [done |]. intros _. unfold modify. simpl.
    split_and!; try done.
    + intros k item. rewrite map_lookup_filter_Some. simpl.
      rewrite Hgone. split.
      * intros [Hk Hnot]. split; [done |]. intros Hc. apply Hnot. eauto.
      * intros [Hk Hc]. split; [done |]. intros (item' & Hk' & Hc').
        congruence.
    + intros k c. rewrite map_lookup_filter_Some. simpl. by rewrite Hgone.
    + intros k l. rewrite map_lookup_filter_Some. simpl. by rewrite Hgone.
    + intros Hfk. apply (delete_menuitems_fk _ s Hfk).
  - split; [done |]. by intros [? ?].
Qed.

Example category_destroy_cases :
  let s' := store_of (CategoryViewSet.destroy 1 Cases.busy) in
  dom (menuitems s') = {[3%positive]}
  ∧ dom (carts s') = {[3%positive]}
  ∧ orderitems s' = ∅
  ∧ Order.total <$> orders s' !! 1%positive = Some 1500%Z
  ∧ CategoryViewSet.destroy 9 Cases.busy = Raise Http404 Cases.busy.
Proof. by vm_compute. Qed.

(** ** More on assignment along the order route *)

(** X23.  [assign_order] without a [delivery_crew_id] never writes.  The
    permission and the order are looked at first: a caller who is not a
    Manager is denied (403), an unknown order is 404, and only then the
    answer is 400 "delivery_crew_id is required". *)
Theorem assign_order_without_target (user id : pk) (s : Store) :
  let r := OrderViewSet.assign_order user id None s in
  store_of r = s
  ∧ (IsManager user s = false → r = Raise PermissionDenied s)
  ∧ (IsManager user s = true → orders s !! id = None →
     r = Raise Http404 s)
  ∧ (IsManager user s = true → is_Some (orders s !! id) →
     r = Ok (error "delivery_crew_id is required" 400) s).
Proof.
  simpl. unfold OrderViewSet.assign_order, bind.
  destruct (IsManager user s) eqn:Hman.
  - rewrite check_permissions_true by done.
    unfold OrderViewSet.get_object, bind, gets.
    rewrite get_queryset_all by (unfold IsManager in Hman; by rewrite Hman).
    by destruct (orders s !! id) as [o|]; simpl; split_and!;
      try done; intros _ [? ?].
  - rewrite check_permissions_false by done. by split_and!.
Qed.

(** X24.  Assign, then deliver: when the order route has assigned a
    placed order (202), the assignee is shown the order and can mark it
    delivered; the order is then delivered and still assigned to them. *)
Theorem assign_then_deliver (manager target id : pk) (o : Order.t)
    (s : Store) :
  order_totals_fit s →
  orders s !! id = Some o →
  Order.status o = false →
  http_status (OrderViewSet.assign_order manager id (Some target) s) = 202 →
  let s1 := store_of (OrderViewSet.assign_order manager id (Some target) s) in
  let r := OrderViewSet.mark_delivered target id s1 in
  is_Some (OrderViewSet.get_queryset target s1 !! id)
  ∧ http_status r = 200
  ∧ orders (store_of r) !! id = Some (delivered (assigned_to target o)).
Proof.
  intros Hfit Ho Hst Hok. simpl.
  rewrite assign_order_eval in Hok |- *. rewrite Ho in Hok |- *.
  destruct (negb (IsManager manager s)); [simpl in Hok; lia |].
  destruct (users s !! target); [| simpl in Hok; lia].
  destruct (Order.delivery_crew o) eqn:Hnone; [simpl in Hok; lia |].
  destruct (IsDeliveryCrew target s) eqn:Hcrew; [| simpl in Hok; lia].
  simpl in Hok |- *.
  destruct (decide (target = manager)); [simpl in Hok; lia |].
  rewrite (Hfit id o Ho) in Hok |- *. simpl.
  set (s1 := set_orders <[id := assigned_to target o]> s).
  assert (OrderViewSet.get_queryset target s1 !! id
          = Some (assigned_to target o)) as Hget.
  { unfold OrderViewSet.get_queryset.
    change (in_group "Delivery crew" target s1) with (IsDeliveryCrew target s).
    rewrite Hcrew.
    destruct (in_group "Manager" target s1 || user_is_staff target s1).
    - simpl. apply lookup_insert_eq.
    - apply map_lookup_filter_Some. split; [| done]. simpl.
      apply lookup_insert_eq. }
  split; [by eexists |].
  rewrite (mark_delivered_found target id (assigned_to target o) s1);
    [| done | done].
  simpl. rewrite Hst, (Hfit id o Ho). simpl. split; [done |].
  apply lookup_insert_eq.
Qed.

Lemma assign_then_deliver_witness :
  let s1 := store_of (OrderViewSet.assign_order Fixture.bob 1
                        (Some Fixture.carol) Fixture.placed) in
  http_status (OrderViewSet.mark_delivered Fixture.carol 1 s1) = 200.
Proof.
  destruct (assign_then_deliver Fixture.bob Fixture.carol 1
              {| Order.user := Fixture.alice; Order.delivery_crew := None;
                 Order.status := false; Order.total := 2500 |}
              Fixture.placed) as (_ & H & _);
    [apply (bool_decide_unpack _); by vm_compute
    | by vm_compute | done | by vm_compute |].
  exact H.
Defined.
